(** * The Gemini question generator of [stream.py]

    A shallow embedding of [AIQuestionGenerator] (prompt building, response
    classification, JSON decoding, error shaping), of the PDF text helper
    and of the "Generate Interview Questions" button handler, together with
    the properties established about them.

    Conventions.
    - A Python [str] is a Rocq [string]; each character stands for one code
      point in the range 0..255.
    - Calls into libraries ([json.loads], [fitz.open], the Gemini client's
      [generate_content]) are parameters of the model: every theorem holds
      whatever these calls return or raise.
    - A computation is a pair of the effects it performed, in order
      ([st.error], [st.warning], [st.success], outbound requests), and of
      its outcome: a returned value or a raised exception. *)

From Stdlib Require Import String Ascii List ZArith Bool Arith Lia.
From Stdlib Require Import DecimalString.
Import ListNotations.

Set Warnings "-register-all".

Local Open Scope list_scope.
Local Open Scope string_scope.

(* ===================================================================== *)
(** * Python strings *)
(* ===================================================================== *)

Definition chr (n : nat) : string := String (ascii_of_nat n) EmptyString.

(** The double quote and the line feed, which string literals here never
    contain. *)
Definition dq : string := chr 34.
Definition nl : string := chr 10.

(** [str(n)] for a natural number. *)
Definition str_of_nat (n : nat) : string :=
  NilEmpty.string_of_uint (Nat.to_uint n).

(** [c.isspace()] for a code point below 256: TAB, LF, VT, FF, CR, the
    separators FS, GS, RS, US, the space, NEL and the no-break space. *)
Definition isspace (c : ascii) : bool :=
  let n := nat_of_ascii c in
  (((9 <=? n) && (n <=? 13)) || ((28 <=? n) && (n <=? 32))
   || (n =? 133) || (n =? 160))%nat.

(** [s.lstrip()] *)
Fixpoint lstrip (s : string) : string :=
  match s with
  | EmptyString => EmptyString
  | String c s' => if isspace c then lstrip s' else s
  end.

(** [s.rstrip()] *)
Fixpoint rstrip (s : string) : string :=
  match s with
  | EmptyString => EmptyString
  | String c s' =>
      match rstrip s' with
      | EmptyString => if isspace c then EmptyString else String c EmptyString
      | r => String c r
      end
  end.

(** [s.strip()] *)
Definition strip (s : string) : string := rstrip (lstrip s).

(** [s.startswith(p)] *)
Definition startswith (s p : string) : bool := prefix p s.

(** [s[n:]] for [n >= 0] *)
Fixpoint slice_from (n : nat) (s : string) : string :=
  match n, s with
  | O, _ => s
  | S _, EmptyString => EmptyString
  | S n', String _ s' => slice_from n' s'
  end.

(** [s[:n]] for [n >= 0] *)
Fixpoint slice_to (n : nat) (s : string) : string :=
  match n, s with
  | O, _ => EmptyString
  | S _, EmptyString => EmptyString
  | S n', String c s' => String c (slice_to n' s')
  end.

(** [s[:-n]] for [n > 0] *)
Definition slice_to_neg (n : nat) (s : string) : string :=
  slice_to (String.length s - n) s.

(** [s.endswith(p)] *)
Definition endswith (s p : string) : bool :=
  (String.length p <=? String.length s)%nat
  && String.eqb (slice_from (String.length s - String.length p) s) p.

(** [sep.join(xs)] *)
Fixpoint join (sep : string) (xs : list string) : string :=
  match xs with
  | [] => EmptyString
  | [x] => x
  | x :: rest => x ++ sep ++ join sep rest
  end.

(** Truth value of a [str]: non-empty. *)
Definition str_truthy (s : string) : bool :=
  match s with EmptyString => false | _ => true end.

(** [sub in s], as a proposition. *)
Definition contains (s sub : string) : Prop :=
  exists pre post, s = pre ++ sub ++ post.

(* ===================================================================== *)
(** * Python values decoded from JSON *)
(* ===================================================================== *)

(** What [json.loads] builds: [None], [bool], a number (kept as its
    lexeme), [str], [list], [dict].  A [dict] is kept as the pairs that
    built it, in order; looking a key up takes its last binding, as
    [dict(pairs)] does. *)
Inductive json : Type :=
| JNull
| JBool (b : bool)
| JNumber (lexeme : string)
| JString (s : string)
| JArray (items : list json)
| JObject (pairs : list (string * json)).

(** [d[k]] if [k in d]. *)
Fixpoint dict_lookup (d : list (string * json)) (k : string) : option json :=
  match d with
  | [] => None
  | (k', v) :: rest =>
      match dict_lookup rest k with
      | Some v' => Some v'
      | None => if String.eqb k' k then Some v else None
      end
  end.

(** [d.get(k, default)] *)
Definition dict_get (d : list (string * json)) (k : string) (default : json) : json :=
  match dict_lookup d k with
  | Some v => v
  | None => default
  end.

(** [type(v).__name__] *)
Definition type_name (v : json) : string :=
  match v with
  | JNull => "NoneType"
  | JBool _ => "bool"
  | JNumber lx =>
      if existsb (fun c => existsb (Ascii.eqb c) (list_ascii_of_string ".eEaI"))
                 (list_ascii_of_string lx)
      then "float" else "int"
  | JString _ => "str"
  | JArray _ => "list"
  | JObject _ => "dict"
  end.

(* ===================================================================== *)
(** * Exceptions, effects and computations *)
(* ===================================================================== *)

(** Which [except] clause of [generate_questions_from_text] an exception
    matches: [json.JSONDecodeError], [google.api_core.exceptions.
    GoogleAPIError] (the base class and all its subclasses), or only
    [Exception]. *)
Inductive ExcClass : Type :=
| IsJSONDecodeError
| IsGoogleAPIError
| IsOtherException.

(** An exception object: the name of its type, the clause it matches, its
    [str()], and its attributes [message] and [code] when it has them.
    [GoogleAPIError] itself defines neither attribute; its subclass
    [GoogleAPICallError] defines both, [RetryError] defines [message]
    only.  Exceptions outside [Exception] ([KeyboardInterrupt],
    [SystemExit]) are not modelled. *)
Record PyExc : Type := mkExc {
  exc_type_name : string;
  exc_class : ExcClass;
  exc_str : string;
  exc_message : option string;
  exc_code : option string
}.

(** The [AttributeError] of reading a missing attribute. *)
Definition attribute_error (type_of_obj attr : string) : PyExc :=
  mkExc "AttributeError" IsOtherException
        ("'" ++ type_of_obj ++ "' object has no attribute '" ++ attr ++ "'")
        None None.

Inductive Effect : Type :=
| StError (msg : string)
| StWarning (msg : string)
| StSuccess (msg : string)
| GenerateContent (prompt : string).

Inductive Outcome (A : Type) : Type :=
| Returned (a : A)
| Raised (e : PyExc).
Arguments Returned {A} a.
Arguments Raised {A} e.

Definition Run (A : Type) : Type := (list Effect * Outcome A)%type.

Definition ret {A} (a : A) : Run A := ([], Returned a).

Definition raise {A} (e : PyExc) : Run A := ([], Raised e).

Definition emit (ev : Effect) : Run unit := ([ev], Returned tt).

Definition bind {A B} (m : Run A) (k : A -> Run B) : Run B :=
  match m with
  | (fx, Returned a) => let (fx', o) := k a in ((fx ++ fx')%list, o)
  | (fx, Raised e) => (fx, Raised e)
  end.

(** [try: m  except Exception as e: h e] *)
Definition try_except {A} (m : Run A) (h : PyExc -> Run A) : Run A :=
  match m with
  | (fx, Raised e) => let (fx', o) := h e in ((fx ++ fx')%list, o)
  | done => done
  end.

(** A library call: no effect of its own, it returns or raises. *)
Definition lift {A} (o : Outcome A) : Run A := ([], o).

Notation "x <- m ;; k" := (bind m (fun x => k))
  (at level 61, m at next level, right associativity).
Notation "m ;;; k" := (bind m (fun _ => k))
  (at level 61, right associativity).

Definition effects {A} (r : Run A) : list Effect := fst r.
Definition outcome {A} (r : Run A) : Outcome A := snd r.

Definition is_st_error (ev : Effect) : bool :=
  match ev with StError _ => true | _ => false end.

Definition is_request (ev : Effect) : bool :=
  match ev with GenerateContent _ => true | _ => false end.

(* ===================================================================== *)
(** * A reference JSON decoder *)
(* ===================================================================== *)

(** The model takes [json.loads] as a parameter.  [RefJson.loads] is the
    decoder used to run the model on concrete response texts: the grammar
    of Python's [json] module (objects, arrays, strings with their
    escapes, numbers, [true], [false], [null], [NaN], [Infinity],
    [-Infinity]), its [JSONDecodeError] messages and positions.  An escape
    [\uXXXX] above code point 255 is outside the modelled alphabet and is
    refused. *)
Module RefJson.

Inductive Parsed (A : Type) : Type :=
| POk (a : A) (rest : string) (pos : nat)
| PErr (msg : string) (pos : nat).
Arguments POk {A} a rest pos.
Arguments PErr {A} msg pos.

Definition is_json_ws (c : ascii) : bool :=
  let n := nat_of_ascii c in
  ((n =? 32) || (n =? 9) || (n =? 10) || (n =? 13))%nat.

Fixpoint skip_ws (s : string) (pos : nat) : string * nat :=
  match s with
  | String c s' => if is_json_ws c then skip_ws s' (S pos) else (s, pos)
  | EmptyString => (s, pos)
  end.

Definition is_digit (c : ascii) : bool :=
  let n := nat_of_ascii c in ((48 <=? n) && (n <=? 57))%nat.

Definition hex_value (c : ascii) : option nat :=
  let n := nat_of_ascii c in
  if ((48 <=? n) && (n <=? 57))%nat then Some (n - 48)
  else if ((65 <=? n) && (n <=? 70))%nat then Some (n - 55)
  else if ((97 <=? n) && (n <=? 102))%nat then Some (n - 87)
  else None.

Definition escape_char (c : ascii) : option ascii :=
  let n := nat_of_ascii c in
  if (n =? 34)%nat then Some c              (* quote *)
  else if (n =? 92)%nat then Some c         (* backslash *)
  else if (n =? 47)%nat then Some c         (* slash *)
  else if (n =? 98)%nat then Some (ascii_of_nat 8)
  else if (n =? 102)%nat then Some (ascii_of_nat 12)
  else if (n =? 110)%nat then Some (ascii_of_nat 10)
  else if (n =? 114)%nat then Some (ascii_of_nat 13)
  else if (n =? 116)%nat then Some (ascii_of_nat 9)
  else None.

Definition cons_ok (c : ascii) (r : Parsed string) : Parsed string :=
  match r with
  | POk a rest pos => POk (String c a) rest pos
  | PErr msg pos => PErr msg pos
  end.

(** The body of a string, after its opening quote at [start]. *)
Fixpoint scanstring (start : nat) (s : string) (pos : nat) : Parsed string :=
  match s with
  | EmptyString => PErr "Unterminated string starting at" start
  | String c s' =>
      let n := nat_of_ascii c in
      if (n =? 34)%nat then POk EmptyString s' (S pos)
      else if (n =? 92)%nat then
        match s' with
        | EmptyString => PErr "Unterminated string starting at" start
        | String e s'' =>
            if (nat_of_ascii e =? 117)%nat then
              match s'' with
              | String h1 (String h2 (String h3 (String h4 s4))) =>
                  match hex_value h1, hex_value h2, hex_value h3, hex_value h4 with
                  | Some a, Some b, Some c3, Some d =>
                      if ((a =? 0) && (b =? 0))%nat
                      then cons_ok (ascii_of_nat (16 * c3 + d))
                                   (scanstring start s4 (pos + 6))
                      else PErr "Code point outside the modelled alphabet" pos
                  | _, _, _, _ => PErr "Invalid \uXXXX escape" (S pos)
                  end
              | _ => PErr "Invalid \uXXXX escape" (S pos)
              end
            else
              match escape_char e with
              | Some d => cons_ok d (scanstring start s'' (pos + 2))
              | None => PErr ("Invalid \escape: '" ++ String e "'") pos
              end
        end
      else if (n <? 32)%nat then PErr "Invalid control character at" pos
      else cons_ok c (scanstring start s' (S pos))
  end.

Fixpoint take_digits (s : string) : string * string :=
  match s with
  | String c s' =>
      if is_digit c then let (d, r) := take_digits s' in (String c d, r)
      else (EmptyString, s)
  | EmptyString => (EmptyString, s)
  end.

(** The number at the head of [s], if any: its lexeme and what follows. *)
Definition match_number (s : string) : option (string * string) :=
  let (sign, s1) :=
    match s with
    | String c s' => if (nat_of_ascii c =? 45)%nat then ("-", s') else ("", s)
    | EmptyString => ("", s)
    end in
  let (ds, s2) := take_digits s1 in
  let int_part :=
    match ds with
    | EmptyString => None
    | String d _ =>
        if (nat_of_ascii d =? 48)%nat
        then Some ("0", slice_from 1 s1)
        else Some (ds, s2)
    end in
  match int_part with
  | None => None
  | Some (ip, s3) =>
      let (frac, s4) :=
        match s3 with
        | String c s' =>
            if (nat_of_ascii c =? 46)%nat then
              match take_digits s' with
              | (EmptyString, _) => ("", s3)
              | (fd, r) => ("." ++ fd, r)
              end
            else ("", s3)
        | EmptyString => ("", s3)
        end in
      let (ex, s5) :=
        match s4 with
        | String c s' =>
            if ((nat_of_ascii c =? 101) || (nat_of_ascii c =? 69))%nat then
              let (sg, s'') :=
                match s' with
                | String g t =>
                    if ((nat_of_ascii g =? 43) || (nat_of_ascii g =? 45))%nat
                    then (String g "", t) else ("", s')
                | EmptyString => ("", s')
                end in
              match take_digits s'' with
              | (EmptyString, _) => ("", s4)
              | (ed, r) => (String c "" ++ sg ++ ed, r)
              end
            else ("", s4)
        | EmptyString => ("", s4)
        end in
      Some (sign ++ ip ++ frac ++ ex, s5)
  end.

Definition literal (word : string) (v : json) (s : string) (pos : nat)
  : option (Parsed json) :=
  if prefix word s
  then Some (POk v (slice_from (String.length word) s) (pos + String.length word))
  else None.

Definition first_some {A} (xs : list (option A)) (default : A) : A :=
  match flat_map (fun o => match o with Some a => [a] | None => [] end) xs with
  | a :: _ => a
  | [] => default
  end.

(** [scan_once]: one value at the head of [s]. *)
Fixpoint scan_once (fuel : nat) (s : string) (pos : nat) : Parsed json :=
  match fuel with
  | O => PErr "maximum recursion depth exceeded" pos
  | S fuel' =>
      match s with
      | EmptyString => PErr "Expecting value" pos
      | String c s' =>
          let n := nat_of_ascii c in
          if (n =? 34)%nat then
            match scanstring pos s' (S pos) with
            | POk str rest p => POk (JString str) rest p
            | PErr m p => PErr m p
            end
          else if (n =? 123)%nat then
            let (s1, p1) := skip_ws s' (S pos) in
            match s1 with
            | String c1 s1' =>
                if (nat_of_ascii c1 =? 125)%nat then POk (JObject []) s1' (S p1)
                else if (nat_of_ascii c1 =? 34)%nat then
                  match members fuel' s1' (S p1) with
                  | POk ps rest p => POk (JObject ps) rest p
                  | PErr m p => PErr m p
                  end
                else PErr "Expecting property name enclosed in double quotes" p1
            | EmptyString =>
                PErr "Expecting property name enclosed in double quotes" p1
            end
          else if (n =? 91)%nat then
            let (s1, p1) := skip_ws s' (S pos) in
            match s1 with
            | String c1 s1' =>
                if (nat_of_ascii c1 =? 93)%nat then POk (JArray []) s1' (S p1)
                else
                  match elements fuel' s1 p1 with
                  | POk vs rest p => POk (JArray vs) rest p
                  | PErr m p => PErr m p
                  end
            | EmptyString => PErr "Expecting value" p1
            end
          else
            first_some
              [ literal "null" JNull s pos;
                literal "true" (JBool true) s pos;
                literal "false" (JBool false) s pos;
                match match_number s with
                | Some (lx, rest) =>
                    Some (POk (JNumber lx) rest
                              (pos + (String.length s - String.length rest)))
                | None => None
                end;
                literal "NaN" (JNumber "NaN") s pos;
                literal "Infinity" (JNumber "Infinity") s pos;
                literal "-Infinity" (JNumber "-Infinity") s pos ]
              (PErr "Expecting value" pos)
      end
  end

(** The items of an array, from its first value to the closing bracket. *)
with elements (fuel : nat) (s : string) (pos : nat) : Parsed (list json) :=
  match fuel with
  | O => PErr "maximum recursion depth exceeded" pos
  | S fuel' =>
      match scan_once fuel' s pos with
      | PErr m p => PErr m p
      | POk v rest p =>
          let (s1, p1) := skip_ws rest p in
          match s1 with
          | String c s1' =>
              if (nat_of_ascii c =? 93)%nat then POk [v] s1' (S p1)
              else if (nat_of_ascii c =? 44)%nat then
                let (s2, p2) := skip_ws s1' (S p1) in
                match elements fuel' s2 p2 with
                | POk vs rest' p' => POk (v :: vs) rest' p'
                | PErr m p' => PErr m p'
                end
              else PErr "Expecting ',' delimiter" p1
          | EmptyString => PErr "Expecting ',' delimiter" p1
          end
      end
  end

(** The members of an object, from just after the opening quote of a key
    to the closing brace. *)
with members (fuel : nat) (s : string) (pos : nat)
  : Parsed (list (string * json)) :=
  match fuel with
  | O => PErr "maximum recursion depth exceeded" pos
  | S fuel' =>
      match scanstring (pos - 1) s pos with
      | PErr m p => PErr m p
      | POk key rest p =>
          let (s1, p1) := skip_ws rest p in
          match s1 with
          | String c s1' =>
              if (nat_of_ascii c =? 58)%nat then
                let (s2, p2) := skip_ws s1' (S p1) in
                match scan_once fuel' s2 p2 with
                | PErr m p' => PErr m p'
                | POk v rest' p' =>
                    let (s3, p3) := skip_ws rest' p' in
                    match s3 with
                    | String c3 s3' =>
                        if (nat_of_ascii c3 =? 125)%nat
                        then POk [(key, v)] s3' (S p3)
                        else if (nat_of_ascii c3 =? 44)%nat then
                          let (s4, p4) := skip_ws s3' (S p3) in
                          match s4 with
                          | String c4 s4' =>
                              if (nat_of_ascii c4 =? 34)%nat then
                                match members fuel' s4' (S p4) with
                                | POk ps r4 p5 => POk ((key, v) :: ps) r4 p5
                                | PErr m p5 => PErr m p5
                                end
                              else PErr "Expecting property name enclosed in double quotes" p4
                          | EmptyString =>
                              PErr "Expecting property name enclosed in double quotes" p4
                          end
                        else PErr "Expecting ',' delimiter" p3
                    | EmptyString => PErr "Expecting ',' delimiter" p3
                    end
                end
              else PErr "Expecting ':' delimiter" p1
          | EmptyString => PErr "Expecting ':' delimiter" p1
          end
      end
  end.

(** Line and column of position [pos] in [doc], as [JSONDecodeError]
    computes them. *)
Fixpoint line_col (doc : string) (pos line col : nat) : nat * nat :=
  match pos, doc with
  | O, _ => (line, col)
  | S _, EmptyString => (line, col)
  | S pos', String c doc' =>
      if (nat_of_ascii c =? 10)%nat then line_col doc' pos' (S line) 1
      else line_col doc' pos' line (S col)
  end.

Definition decode_error (msg doc : string) (pos : nat) : PyExc :=
  let (line, col) := line_col doc pos 1 1 in
  mkExc "JSONDecodeError" IsJSONDecodeError
        (msg ++ ": line " ++ str_of_nat line ++ " column " ++ str_of_nat col
             ++ " (char " ++ str_of_nat pos ++ ")")
        None None.

(** [json.loads(doc)] *)
Definition loads (doc : string) : Outcome json :=
  let (s0, p0) := skip_ws doc 0 in
  match scan_once (S (String.length doc)) s0 p0 with
  | PErr m p => Raised (decode_error m doc p)
  | POk v rest p =>
      match skip_ws rest p with
      | (EmptyString, _) => Returned v
      | (_, p') => Raised (decode_error "Extra data" doc p')
      end
  end.

End RefJson.

(* ===================================================================== *)
(** * The Gemini response object *)
(* ===================================================================== *)

(** An enum member ([BlockReason], [FinishReason]): its integer value,
    which decides its truth value, its comparison with [1] and its use as
    a dictionary key; its [str()]; and the text an f-string formats it to. *)
Record PyEnum : Type := mkEnum {
  enum_value : Z;
  enum_str : string;
  enum_format : string
}.

Definition enum_truthy (e : PyEnum) : bool := negb (enum_value e =? 0)%Z.

(** A safety rating, by the text its two fields format to. *)
Record SafetyRating : Type := mkRating {
  category : string;
  probability : string
}.

Record PromptFeedback : Type := mkFeedback {
  block_reason : PyEnum;
  feedback_safety_ratings : list SafetyRating
}.

(** A content part; [text = None] when the part has no [text] attribute. *)
Record Part : Type := mkPart {
  text : option string
}.

Record Content : Type := mkContent {
  parts : list Part
}.

(** A candidate; [content = None] stands for a content that is absent or
    false. *)
Record Candidate : Type := mkCandidate {
  finish_reason : PyEnum;
  safety_ratings : list SafetyRating;
  content : option Content
}.

Record GenerateContentResponse : Type := mkResponse {
  prompt_feedback : option PromptFeedback;
  candidates : list Candidate
}.

(** [genai.GenerativeModel]: what [generate_content] does with a prompt. *)
Record GenerativeModel : Type := mkModel {
  generate_content : string -> Outcome GenerateContentResponse
}.

(** The attributes of [AIQuestionGenerator] its methods read. *)
Record AIQuestionGenerator : Type := mkGenerator {
  client : option GenerativeModel;
  is_configured : bool
}.

(** The dictionary that [generate_questions_from_text] returns: four keys,
    always present. *)
Record QuestionSet : Type := mkQuestionSet {
  technical : json;
  behavioral : json;
  project_specific : json;
  scenario_based : json
}.

(** A [QuestionSet] as the dictionary it is. *)
Definition items (qs : QuestionSet) : list (string * json) :=
  [ ("technical", technical qs);
    ("behavioral", behavioral qs);
    ("project_specific", project_specific qs);
    ("scenario_based", scenario_based qs) ].

(* ===================================================================== *)
(** * Prompt of [generate_questions_from_text] *)
(* ===================================================================== *)

(** Lines 64-70 of the prompt, up to the resume text. *)
Definition prompt_head : string :=
  join nl
  [ "";
    "        You are an expert technical interviewer and career coach. Your task is to generate insightful interview questions based on the provided resume and job description. Aim for a comprehensive set of at least 25 questions, tailored to help a candidate prepare for internship interviews.";
    "";
    "        **Input Materials:**";
    "        ---";
    "        **Resume Content:**";
    "        " ].

(** Lines 70-72, between the resume text and the job description section. *)
Definition prompt_mid : string :=
  join nl
  [ "";
    "        ---";
    "        " ].

(** Lines 72-119, after the job description section. *)
Definition prompt_tail : string :=
  join nl
  [ "";
    "        ---";
    "";
    "        **Question Generation Guidelines:**";
    "        1.  **Relevance:** Prioritize questions that directly relate to skills, technologies, and experiences mentioned in BOTH the resume and the job description. If no JD, focus on resume.";
    "        2.  **Depth & Breadth:** Cover a range of topics from fundamental concepts to practical application.";
    "        3.  **Realism:** Formulate questions similar to those asked in actual internship interviews for tech roles.";
    "        4.  **Progression:** Include questions suitable for different interview stages (screening, technical deep-dive).";
    "        5.  **Clarity:** Ensure questions are unambiguous.";
    "";
    "        **Question Categories (ensure a good distribution, aiming for 25+ total):**";
    "";
    "        1.  **Technical Deep Dive (8-10 questions):**";
    "            *   Based on specific programming languages, frameworks, and tools listed (e.g., Python, React, Docker, Git).";
    "            *   Data structures and algorithms (e.g., " ++ dq ++ "Explain how you would use a hash map to optimize [specific scenario from resume/JD]?" ++ dq ++ ").";
    "            *   Database concepts (SQL/NoSQL, querying, design if mentioned).";
    "            *   System design fundamentals (scaled appropriately for an intern, e.g., " ++ dq ++ "How would you design a simple URL shortener, focusing on the API and data storage?" ++ dq ++ ").";
    "            *   Debugging and troubleshooting approaches.";
    "";
    "        2.  **Project-Specific (6-8 questions):**";
    "            *   Probe into specific projects listed on the resume.";
    "            *   " ++ dq ++ "On project X, you mentioned using Y technology. Can you walk me through a specific challenge you faced and how you overcame it?" ++ dq;
    "            *   " ++ dq ++ "What was your specific contribution to project Z? How did you collaborate with others?" ++ dq;
    "            *   " ++ dq ++ "If you could redo project A, what would you do differently and why?" ++ dq;
    "            *   " ++ dq ++ "How did you test your work on project B?" ++ dq;
    "";
    "        3.  **Behavioral & Situational (6-8 questions):** (Use STAR method for answering these)";
    "            *   " ++ dq ++ "Describe a time you had to learn a new technology quickly for a project." ++ dq;
    "            *   " ++ dq ++ "Tell me about a challenging team project and how you handled disagreements." ++ dq;
    "            *   " ++ dq ++ "How do you approach a task when the requirements are unclear?" ++ dq;
    "            *   " ++ dq ++ "Describe a mistake you made and what you learned from it." ++ dq;
    "            *   (If JD is present) " ++ dq ++ "This role requires [skill from JD, e.g., 'strong problem-solving skills']. Can you give an example of how you've demonstrated this?" ++ dq;
    "";
    "        4.  **Scenario-Based/Problem-Solving (4-6 questions):**";
    "            *   " ++ dq ++ "Imagine you're given a task to build [a small feature related to JD or resume skills]. What would be your initial steps and thought process?" ++ dq;
    "            *   " ++ dq ++ "How would you debug a situation where [common problem, e.g., 'a web application is running slower than expected']?" ++ dq;
    "            *   " ++ dq ++ "You've pushed code that inadvertently broke a feature in production for a personal project. What steps would you take immediately?" ++ dq;
    "";
    "        **Output Format:**";
    "        Return a single, valid JSON object with the following structure. Do NOT include any text before or after the JSON object (e.g. no " ++ dq ++ "```json" ++ dq ++ " or " ++ dq ++ "```" ++ dq ++ ").";
    "";
    "        {";
    "            " ++ dq ++ "technical" ++ dq ++ ": [" ++ dq ++ "Question 1 about tech..." ++ dq ++ ", " ++ dq ++ "Question 2 about tech..." ++ dq ++ "],";
    "            " ++ dq ++ "behavioral" ++ dq ++ ": [" ++ dq ++ "Question 1 about behavior..." ++ dq ++ ", " ++ dq ++ "Question 2 about behavior..." ++ dq ++ "],";
    "            " ++ dq ++ "project_specific" ++ dq ++ ": [" ++ dq ++ "Question 1 about project..." ++ dq ++ ", " ++ dq ++ "Question 2 about project..." ++ dq ++ "],";
    "            " ++ dq ++ "scenario_based" ++ dq ++ ": [" ++ dq ++ "Scenario question 1..." ++ dq ++ ", " ++ dq ++ "Scenario question 2..." ++ dq ++ "]";
    "        }";
    "        " ].

(** Lines 56-62. *)
Definition job_description_section (job_description_text : option string) : string :=
  match job_description_text with
  | Some jd =>
      if str_truthy jd && str_truthy (strip jd)
      then join nl
             [ "";
               "        **Job Description:**";
               "        ---";
               "        " ++ jd;
               "        ---" ]
      else "No job description provided."
  | None => "No job description provided."
  end.

(** Lines 64-119. *)
Definition build_prompt (resume_text_content : string)
                        (job_description_text : option string) : string :=
  prompt_head ++ resume_text_content ++ prompt_mid
    ++ job_description_section job_description_text ++ prompt_tail.

(** Lines 210-217. *)
Definition answer_prompt (question_text : string) : string :=
  join nl
  [ "";
    "        You are an expert interviewer, career coach, and industry professional.";
    "        A candidate has been asked the following interview question:";
    "        ---";
    "        Question: " ++ dq ++ question_text ++ dq;
    "        ---";
    "        Provide a model answer. (Instructions from previous prompt are still relevant)";
    "        " ].

(* ===================================================================== *)
(** * [AIQuestionGenerator] *)
(* ===================================================================== *)

(** Lines 38-47. *)
Definition _return_error_structure (error_message_for_ui : string)
    (error_message_for_dict : option string) : Run QuestionSet :=
  emit (StError error_message_for_ui) ;;;
  let final_error_msg :=
    match error_message_for_dict with
    | Some m => if str_truthy m then m else error_message_for_ui
    | None => error_message_for_ui
    end in
  ret (mkQuestionSet (JArray [JString ("Error: " ++ final_error_msg)])
                     (JArray []) (JArray []) (JArray [])).

(** [not self.client or not self.is_configured] *)
Definition not_ready (self : AIQuestionGenerator) : bool :=
  match client self with
  | None => true
  | Some _ => negb (is_configured self)
  end.

(** ["\n".join([f"  - {r.category}: {r.probability}" for r in ratings])] *)
Definition format_ratings (ratings : list SafetyRating) : string :=
  join nl (map (fun r => "  - " ++ category r ++ ": " ++ probability r) ratings).

(** [response.prompt_feedback and response.prompt_feedback.block_reason] *)
Definition prompt_blocked (response : GenerateContentResponse) : option PromptFeedback :=
  match prompt_feedback response with
  | Some pf => if enum_truthy (block_reason pf) then Some pf else None
  | None => None
  end.

Definition reason_map : list (Z * string) :=
  [ (0%Z, "UNSPECIFIED"); (1%Z, "STOP"); (2%Z, "MAX_TOKENS");
    (3%Z, "SAFETY"); (4%Z, "RECITATION"); (5%Z, "OTHER") ].

(** [reason_map.get(reason_val, f"UNKNOWN ({reason_val})")] *)
Definition reason_str (reason_val : PyEnum) : string :=
  match find (fun kv => (fst kv =? enum_value reason_val)%Z) reason_map with
  | Some kv => snd kv
  | None => "UNKNOWN (" ++ enum_format reason_val ++ ")"
  end.

(** [candidate.content and candidate.content.parts]: the parts, when the
    test is true. *)
Definition content_parts (candidate : Candidate) : option (list Part) :=
  match content candidate with
  | Some c => match parts c with [] => None | ps => Some ps end
  | None => None
  end.

(** [any(p.text for p in parts if hasattr(p, 'text'))] *)
Definition any_text (ps : list Part) : bool :=
  existsb (fun p => match text p with Some t => str_truthy t | None => false end) ps.

(** ["".join(part.text for part in parts if hasattr(part, 'text') and part.text)] *)
Definition join_text (ps : list Part) : string :=
  join "" (flat_map (fun p => match text p with
                              | Some t => if str_truthy t then [t] else []
                              | None => []
                              end) ps).

(** Lines 160-162: the text the candidate carries. *)
Definition candidate_text (candidate : Candidate) : string :=
  match content_parts candidate with
  | Some ps => join_text ps
  | None => ""
  end.

(** Lines 171-175: the text handed to [json.loads]. *)
Definition clean_generated_text (generated_text : string) : string :=
  let t0 := strip generated_text in
  let t1 := if startswith t0 "```json" then slice_from 7 t0 else t0 in
  if endswith t1 "```" then slice_to_neg 3 t1 else t1.

(** Lines 179-184. *)
Definition question_set_of (questions : list (string * json)) : QuestionSet :=
  mkQuestionSet (dict_get questions "technical" (JArray []))
                (dict_get questions "behavioral" (JArray []))
                (dict_get questions "project_specific" (JArray []))
                (dict_get questions "scenario_based" (JArray [])).

(** Lines 186-202: the three [except] clauses, tried in order. *)
Definition questions_except (e : PyExc) : Run QuestionSet :=
  match exc_class e with
  | IsJSONDecodeError =>
      _return_error_structure
        ("Error decoding JSON from AI response: " ++ exc_str e
           ++ ". Check the raw response below.")
        (Some ("Malformed JSON from API: " ++ exc_str e))
  | IsGoogleAPIError =>
      match exc_message e with
      | None => raise (attribute_error (exc_type_name e) "message")
      | Some message =>
          match exc_code e with
          | None => raise (attribute_error (exc_type_name e) "code")
          | Some code =>
              _return_error_structure
                ("Gemini API Error: " ++ message ++ " (Code: " ++ code ++ ")")
                (Some ("Gemini API Error: " ++ message))
          end
      end
  | IsOtherException =>
      _return_error_structure
        ("An unexpected error occurred during question generation: " ++ exc_str e)
        (Some ("Unexpected error: " ++ exc_str e))
  end.

Section Gateway.

(** [json.loads], on a [str]. *)
Variable json_loads : string -> Outcome json.

(** Lines 160-184: from the first candidate to the returned dictionary. *)
Definition decode_candidate (candidate : Candidate) : Run QuestionSet :=
  let generated_text := candidate_text candidate in
  if negb (str_truthy (strip generated_text)) then
    _return_error_structure
      "Gemini API returned empty text content, possibly due to safety filters or an issue with the prompt response."
      (Some "Empty text content from API.")
  else
    questions <- lift (json_loads (clean_generated_text generated_text)) ;;
    match questions with
    | JObject d => ret (question_set_of d)
    | other => raise (attribute_error (type_name other) "get")
    end.

(** Lines 141-158, then on to [decode_candidate] unless the method has
    returned. *)
Definition check_finish_reason (candidate : Candidate) : Run QuestionSet :=
  if negb (enum_value (finish_reason candidate) =? 1)%Z then
    let reason := reason_str (finish_reason candidate) in
    let error_detail_ui :=
      "Gemini API request finished atypically. Reason: " ++ reason ++ "." in
    let error_detail_dict := "API request finished: " ++ reason ++ "." in
    let '(error_detail_ui, error_detail_dict) :=
      match safety_ratings candidate with
      | [] => (error_detail_ui, error_detail_dict)
      | ratings =>
          (error_detail_ui ++ nl ++ "Safety Ratings:" ++ nl ++ format_ratings ratings,
           error_detail_dict ++ " Check safety ratings.")
      end in
    if match content_parts candidate with
       | Some ps => any_text ps
       | None => false
       end
    then
      emit (StWarning (error_detail_ui ++ nl ++ "Attempting to use partial content.")) ;;;
      decode_candidate candidate
    else _return_error_structure error_detail_ui (Some error_detail_dict)
  else decode_candidate candidate.

(** Lines 122-184: the body of the [try]. *)
Definition questions_try (model : GenerativeModel) (prompt : string) : Run QuestionSet :=
  response <- (emit (GenerateContent prompt) ;;; lift (generate_content model prompt)) ;;
  match prompt_blocked response with
  | Some pf =>
      let reason := enum_str (block_reason pf) in
      let ratings := format_ratings (feedback_safety_ratings pf) in
      _return_error_structure
        ("Gemini API blocked the prompt. Reason: " ++ reason ++ "." ++ nl
           ++ "Safety Ratings:" ++ nl ++ ratings)
        (Some ("Prompt blocked by safety settings (Reason: " ++ reason ++ ")."))
  | None =>
      match candidates response with
      | [] =>
          _return_error_structure
            "Gemini API returned no candidates in the response."
            (Some "No candidates in API response.")
      | candidate :: _ => check_finish_reason candidate
      end
  end.

(** Lines 49-202. *)
Definition generate_questions_from_text (self : AIQuestionGenerator)
    (resume_text_content : string) (job_description_text : option string)
  : Run QuestionSet :=
  match client self with
  | Some model =>
      if negb (is_configured self) then
        _return_error_structure
          "Gemini client not configured. Please check API key."
          (Some "Gemini client not configured.")
      else
        let prompt := build_prompt resume_text_content job_description_text in
        try_except (questions_try model prompt) questions_except
  | None =>
      _return_error_structure
        "Gemini client not configured. Please check API key."
        (Some "Gemini client not configured.")
  end.

(** Lines 220-232: the body of the [try]. *)
Definition answer_try (model : GenerativeModel) (prompt : string) : Run string :=
  response <- (emit (GenerateContent prompt) ;;; lift (generate_content model prompt)) ;;
  match prompt_blocked response with
  | Some pf =>
      ret ("Answer generation blocked by Gemini. Reason: "
             ++ enum_format (block_reason pf))
  | None =>
      match candidates response with
      | [] => ret "Gemini returned no candidates for the answer."
      | candidate :: _ =>
          if negb (enum_value (finish_reason candidate) =? 1)%Z then
            ret ("Answer generation finished atypically. Reason: "
                   ++ enum_format (finish_reason candidate))
          else
            match content_parts candidate with
            | Some ps => ret (strip (join_text ps))
            | None => ret "No text content found in Gemini response for the answer."
            end
      end
  end.

(** Lines 234-236. *)
Definition answer_except (e : PyExc) : Run string :=
  emit (StError ("Error generating answer with Gemini: " ++ exc_str e)) ;;;
  ret ("Error generating answer: " ++ exc_str e).

(** Lines 204-236. *)
Definition generate_answer_for_question (self : AIQuestionGenerator)
    (question_text : string) : Run string :=
  match client self with
  | Some model =>
      if negb (is_configured self)
      then ret "Gemini client not configured. Cannot generate answer."
      else if negb (str_truthy question_text)
      then ret "No question provided to generate an answer."
      else try_except (answer_try model (answer_prompt question_text)) answer_except
  | None => ret "Gemini client not configured. Cannot generate answer."
  end.

(* ===================================================================== *)
(** * The "Generate Interview Questions" button *)
(* ===================================================================== *)

(** The entries of [st.session_state] the handler reads and writes; [None]
    is an entry that is missing (or, for [resume_text], [None]). *)
Record SessionState : Type := mkSession {
  ai_question_gen : option AIQuestionGenerator;
  resume_text : option string;
  generated_questions : option QuestionSet;
  current_question_to_answer : option string;
  current_answer : option string
}.

(** Lines 328-333.  The chain of [and] stops at the first false operand:
    only the first item of a non-empty list is asked whether it
    [startswith("Error:")], and an item that is no [str] has no such
    method. *)
Definition is_error_in_response (questions_data : QuestionSet) : Run bool :=
  match technical questions_data with
  | JArray (JString q :: _) => ret (startswith q "Error:")
  | JArray (other :: _) => raise (attribute_error (type_name other) "startswith")
  | _ => ret false
  end.

(** Lines 335-338. *)
Definition has_any_actual_questions (questions_data : QuestionSet) : bool :=
  existsb (fun kv =>
             match snd kv with
             | JArray (JString q :: _) => negb (startswith q "Error:")
             | JArray (_ :: _) => true
             | _ => false
             end)
          (items questions_data).

(** Lines 315-346: the body run when the button is clicked. *)
Definition on_generate_click (ss : SessionState) (job_description : string)
  : Run SessionState :=
  match ai_question_gen ss with
  | Some gen =>
      if negb (is_configured gen) then
        emit (StError "Gemini AI Generator is not configured. Please check your API key in the sidebar.") ;;;
        ret ss
      else
        match resume_text ss with
        | Some (String c r) =>
            questions_data <-
              generate_questions_from_text gen (String c r) (Some job_description) ;;
            let ss' := mkSession (ai_question_gen ss) (resume_text ss)
                                 (Some questions_data) None None in
            is_error <- is_error_in_response questions_data ;;
            (if negb is_error && has_any_actual_questions questions_data
             then emit (StSuccess "Questions generated!")
             else ret tt) ;;;
            ret ss'
        | _ =>
            emit (StWarning "Please upload a resume first.") ;;;
            ret ss
        end
  | None =>
      emit (StError "Gemini AI Generator is not configured. Please check your API key in the sidebar.") ;;;
      ret ss
  end.

End Gateway.

(* ===================================================================== *)
(** * PDF text extraction *)
(* ===================================================================== *)

(** A page of an opened document: what [page.get_text()] does. *)
Record Page : Type := mkPage {
  get_text : Outcome string
}.

(** An opened document: its pages in order and what [doc.close()] does. *)
Record Document : Type := mkDocument {
  doc_pages : list Page;
  doc_close : Outcome unit
}.

Section Extraction.

(** [fitz.open(stream=pdf_bytes, filetype="pdf")] *)
Variable fitz_open : list Byte.byte -> Outcome Document.

(** Lines 243-244: the loop over the pages. *)
Fixpoint extract_pages (pages : list Page) (text_so_far : string) : Run string :=
  match pages with
  | [] => ret text_so_far
  | page :: rest =>
      t <- lift (get_text page) ;;
      extract_pages rest (text_so_far ++ t)
  end.

(** Lines 239-249. *)
Definition extract_text_from_pdf_bytes (pdf_bytes : list Byte.byte)
  : Run (option string) :=
  try_except
    (doc <- lift (fitz_open pdf_bytes) ;;
     extracted <- extract_pages (doc_pages doc) "" ;;
     lift (doc_close doc) ;;;
     ret (Some extracted))
    (fun e =>
       emit (StError ("Error extracting text from PDF: " ++ exc_str e)) ;;;
       ret None).

End Extraction.

(* ===================================================================== *)
(** * Sample objects *)
(* ===================================================================== *)

Module Sample.

Definition STOP : PyEnum := mkEnum 1 "FinishReason.STOP" "1".
Definition MAX_TOKENS : PyEnum := mkEnum 2 "FinishReason.MAX_TOKENS" "2".
Definition BLOCK_SAFETY : PyEnum := mkEnum 1 "BlockReason.SAFETY" "1".

(** A candidate that carries [t] in a single part. *)
Definition candidate_with (reason : PyEnum) (t : string) : Candidate :=
  mkCandidate reason [] (Some (mkContent [mkPart (Some t)])).

(** A response with that one candidate. *)
Definition response_with (reason : PyEnum) (t : string) : GenerateContentResponse :=
  mkResponse None [candidate_with reason t].

(** A candidate that stopped normally with two parts, one with an empty
    text and one with no text. *)
Definition hollow_candidate : Candidate :=
  mkCandidate STOP [] (Some (mkContent [mkPart (Some ""); mkPart None])).

(** A configured generator whose service answers every prompt with [o]. *)
Definition generator_answering (o : Outcome GenerateContentResponse)
  : AIQuestionGenerator :=
  mkGenerator (Some (mkModel (fun _ => o))) true.

(** A generator built without an API key. *)
Definition unconfigured : AIQuestionGenerator := mkGenerator None false.

Definition blocked_response : GenerateContentResponse :=
  mkResponse (Some (mkFeedback BLOCK_SAFETY [])) [].

(** [RetryError("Timeout of 60.0s exceeded", cause)]: a [GoogleAPIError]
    with a [message] and no [code]. *)
Definition retry_error : PyExc :=
  mkExc "RetryError" IsGoogleAPIError
        "Timeout of 60.0s exceeded, last exception: 503 The model is overloaded."
        (Some "Timeout of 60.0s exceeded") None.

(** [ServiceUnavailable("The model is overloaded.")]: a
    [GoogleAPICallError], with both attributes. *)
Definition service_unavailable : PyExc :=
  mkExc "ServiceUnavailable" IsGoogleAPIError
        "503 The model is overloaded."
        (Some "The model is overloaded.") (Some "503").

(** The text [{"technical": ["Q1"], "behavioral": [], "project_specific":
    [], "scenario_based": []}]. *)
Definition four_keys_text : string :=
  "{" ++ dq ++ "technical" ++ dq ++ ": [" ++ dq ++ "Q1" ++ dq ++ "], "
      ++ dq ++ "behavioral" ++ dq ++ ": [], "
      ++ dq ++ "project_specific" ++ dq ++ ": [], "
      ++ dq ++ "scenario_based" ++ dq ++ ": []}".

(** The text [{"technical": ["Q1"], "difficulty": "hard"}]. *)
Definition two_keys_text : string :=
  "{" ++ dq ++ "technical" ++ dq ++ ": [" ++ dq ++ "Q1" ++ dq ++ "], "
      ++ dq ++ "difficulty" ++ dq ++ ": " ++ dq ++ "hard" ++ dq ++ "}".

(** What [four_keys_text] parses to. *)
Definition four_keys_dict : list (string * json) :=
  [ ("technical", JArray [JString "Q1"]);
    ("behavioral", JArray []);
    ("project_specific", JArray []);
    ("scenario_based", JArray []) ].

(** The body of a fenced answer: the object on a line of its own. *)
Definition fenced_body : string := nl ++ four_keys_text ++ nl.

(** [fitz.open] on a two-page document, on a document whose second page
    cannot be read, and on bytes that are no PDF. *)
Definition two_pages : Document :=
  mkDocument [mkPage (Returned "Jane Doe"); mkPage (Returned " Python, SQL")]
             (Returned tt).

Definition broken_second_page : Document :=
  mkDocument [mkPage (Returned "Jane Doe");
              mkPage (Raised (mkExc "RuntimeError" IsOtherException
                                    "page is damaged" None None))]
             (Returned tt).

Definition fitz_open_sample (pdf_bytes : list Byte.byte) : Outcome Document :=
  match pdf_bytes with
  | [] => Raised (mkExc "EmptyFileError" IsOtherException
                        "cannot open empty stream" None None)
  | [_] => Returned broken_second_page
  | _ => Returned two_pages
  end.

(** A session with a configured generator and an uploaded resume. *)
Definition session_with (gen : AIQuestionGenerator) (resume : option string)
  : SessionState :=
  mkSession (Some gen) resume None None None.

End Sample.

(* ===================================================================== *)
(** * Vocabulary of the properties *)
(* ===================================================================== *)

(** The dictionary every failure path returns, for a diagnostic [m]. *)
Definition error_structure (m : string) : QuestionSet :=
  mkQuestionSet (JArray [JString ("Error: " ++ m)]) (JArray []) (JArray []) (JArray []).


(** An error was shown with [st.error]. *)
Definition reports_error (fx : list Effect) : Prop := existsb is_st_error fx = true.

(** No error was shown. *)
Definition quiet (fx : list Effect) : Prop := existsb is_st_error fx = false.

(** A request went out to the generation service. *)
Definition issues_request (fx : list Effect) : Prop := existsb is_request fx = true.

(** The generator is configured and its service answers [prompt] with a
    response that is not blocked and whose first candidate is [c]. *)
Definition first_candidate (self : AIQuestionGenerator) (prompt : string)
    (c : Candidate) : Prop :=
  exists model response,
    client self = Some model
    /\ is_configured self = true
    /\ generate_content model prompt = Returned response
    /\ prompt_blocked response = None
    /\ head (candidates response) = Some c.

(** The three ways [generate_questions_from_text] ends: a reported failure,
    a decoded object, an exception. *)
Inductive Ending : Run QuestionSet -> Prop :=
| EndFailure (pre : list Effect) (ui m : string) :
    quiet pre ->
    Ending ((pre ++ [StError ui])%list, Returned (error_structure m))
| EndDecoded (pre : list Effect) (d : list (string * json)) :
    quiet pre ->
    Ending (pre, Returned (question_set_of d))
| EndRaised (pre : list Effect) (e : PyExc) :
    quiet pre ->
    Ending (pre, Raised e).


(* ===================================================================== *)
(** * The page around the generator *)
(* ===================================================================== *)

(** What the page code of lines 16-36 and 258-310 shows, beside the
    effects of the generator and of the PDF helper.  Widgets that display
    a fixed text only ([st.title], [st.header], [st.markdown]) and
    [st.spinner], which shows a transient message around a block, are not
    recorded; the fixed label of the download button is left out. *)
Inductive PageEffect : Type :=
| Core (e : Effect)
| SidebarSuccess (msg : string)
| SidebarError (msg : string)
| SidebarWarning (msg : string)
| SidebarInfo (msg : string)
| DownloadButton (data : list Byte.byte) (file_name mime : string)
| ExpanderText (label body : string).

(** [os.environ], at the two variables the code reads. *)
Record Environ : Type := mkEnviron {
  GEMINI_API_KEY : option string;
  GEMINI_MODEL_NAME : option string
}.

(** Truth value of what [os.getenv] returns: a non-empty string. *)
Definition opt_truthy (o : option string) : bool :=
  match o with
  | Some s => str_truthy s
  | None => false
  end.

(** [a != b] on values that are a [str] or [None]. *)
Definition opt_differ (a b : option string) : bool :=
  match a, b with
  | Some x, Some y => negb (String.eqb x y)
  | None, None => false
  | _, _ => true
  end.

(** An [AIQuestionGenerator] object with all the attributes [__init__]
    sets; [as_generator] holds [client] and [is_configured]. *)
Record GeneratorObject : Type := mkObject {
  model_type : string;
  gemini_api_key : option string;
  model_name : option string;
  as_generator : AIQuestionGenerator
}.

Section Initialisation.

(** [genai.configure(api_key=...)] and [genai.GenerativeModel(name)]. *)
Variable genai_configure : string -> Outcome unit.
Variable genai_GenerativeModel : string -> Outcome GenerativeModel.

(** Lines 16-36: the object built and what the sidebar shows. *)
Definition __init__ (environ : Environ) : list PageEffect * GeneratorObject :=
  let key := GEMINI_API_KEY environ in
  match key with
  | Some k =>
      if str_truthy k then
        match genai_configure k with
        | Returned _ =>
            let name :=
              match GEMINI_MODEL_NAME environ with
              | Some n => n
              | None => "gemini-1.5-flash-latest"
              end in
            match genai_GenerativeModel name with
            | Returned model =>
                ([SidebarSuccess ("Gemini initialized with " ++ name)],
                 mkObject "gemini" key (Some name) (mkGenerator (Some model) true))
            | Raised e =>
                ([SidebarError ("Gemini Initialization Error: " ++ exc_str e)],
                 mkObject "gemini" key (Some name) (mkGenerator None false))
            end
        | Raised e =>
            ([SidebarError ("Gemini Initialization Error: " ++ exc_str e)],
             mkObject "gemini" key None (mkGenerator None false))
        end
      else
        ([SidebarWarning "GEMINI_API_KEY not found. Set it in the sidebar."],
         mkObject "gemini" key None (mkGenerator None false))
  | None =>
      ([SidebarWarning "GEMINI_API_KEY not found. Set it in the sidebar."],
       mkObject "gemini" key None (mkGenerator None false))
  end.

(** The resume entries of [st.session_state]: [resume_filename],
    [resume_bytes] and [resume_text], which lines 296-298 write together. *)
Record Upload : Type := mkUpload {
  up_filename : string;
  up_bytes : list Byte.byte;
  up_text : option string
}.

(** [os.environ] and the entries of [st.session_state]; [None] is an entry
    that is missing. *)
Record PageState : Type := mkPage_state {
  environ : Environ;
  st_gemini_api_key : option string;
  st_model_type : option string;
  st_ai_question_gen : option GeneratorObject;
  st_resume : option Upload;
  st_generated_questions : option QuestionSet;
  st_current_question_to_answer : option string;
  st_current_answer : option string
}.

(** The entries the button handler reads, as [on_generate_click] takes
    them. *)
Definition session_of (ps : PageState) : SessionState :=
  mkSession (option_map as_generator (st_ai_question_gen ps))
            (match st_resume ps with Some u => up_text u | None => None end)
            (st_generated_questions ps)
            (st_current_question_to_answer ps)
            (st_current_answer ps).

(** Lines 258-289: the sidebar.  [text_input] is what the key field
    returns when it is created with a given initial value. *)
Definition sidebar (text_input : string -> string) (ps : PageState)
  : list PageEffect * PageState :=
  let gemini_key_env := GEMINI_API_KEY (environ ps) in
  let initial :=
    match st_gemini_api_key ps with
    | Some k => k
    | None =>
        match gemini_key_env with
        | Some k => if str_truthy k then k else ""
        | None => ""
        end
    end in
  let typed := text_input initial in
  let environ1 :=
    if str_truthy typed
    then mkEnviron (Some typed) (GEMINI_MODEL_NAME (environ ps))
    else environ ps in
  let reinitialize_ai_gen :=
    match st_ai_question_gen ps with
    | None => true
    | Some gen =>
        opt_differ (gemini_api_key gen) (GEMINI_API_KEY environ1)
        || negb (is_configured (as_generator gen))
    end in
  let '(fx, gen1) :=
    if reinitialize_ai_gen then
      if opt_truthy (GEMINI_API_KEY environ1)
      then let (fx, gen) := __init__ environ1 in (fx, Some gen)
      else ([], None)
    else ([], st_ai_question_gen ps) in
  let status :=
    match gen1 with
    | Some gen =>
        if is_configured (as_generator gen)
        then SidebarInfo ("Using: Gemini ("
                            ++ match model_name gen with
                               | Some n => n
                               | None => "None"
                               end ++ ")")
        else SidebarWarning "AI Generator not ready. Please provide your Gemini API key."
    | None => SidebarWarning "AI Generator not ready. Please provide your Gemini API key."
    end in
  ((fx ++ [status])%list,
   mkPage_state environ1 (Some typed) (Some "gemini") gen1
                (st_resume ps) (st_generated_questions ps)
                (st_current_question_to_answer ps) (st_current_answer ps)).

End Initialisation.

Section Uploading.

Variable fitz_open : list Byte.byte -> Outcome Document.

(** Lines 303-310: the download button and the preview, or the error. *)
Definition show_resume (u : Upload) : list PageEffect :=
  (match up_bytes u with
   | [] => []
   | data => [DownloadButton data (up_filename u) "application/pdf"]
   end
   ++ match up_text u with
      | Some (String c r) =>
          [ExpanderText "View Extracted Resume Text (first 1000 chars)"
                        (slice_to 1000 (String c r) ++ "...")]
      | _ => [Core (StError "Could not extract text from the uploaded PDF.")]
      end)%list.

(** Lines 292-310: [uploaded_file] is what the file uploader returns, the
    name and the bytes of the file, if any. *)
Definition upload (uploaded_file : option (string * list Byte.byte))
    (ps : PageState) : list PageEffect * Outcome PageState :=
  match uploaded_file with
  | None => ([], Returned ps)
  | Some (name, data) =>
      let fresh :=
        match st_resume ps with
        | None => true
        | Some u => negb (String.eqb (up_filename u) name)
        end in
      if fresh then
        match extract_text_from_pdf_bytes fitz_open data with
        | (fx, Returned extracted) =>
            let u := mkUpload name data extracted in
            ((map Core fx ++ show_resume u)%list,
             Returned (mkPage_state (environ ps) (st_gemini_api_key ps)
                                    (st_model_type ps) (st_ai_question_gen ps)
                                    (Some u) None None None))
        | (fx, Raised e) => (map Core fx, Raised e)
        end
      else
        match st_resume ps with
        | Some u => (show_resume u, Returned ps)
        | None => ([], Returned ps)
        end
  end.

End Uploading.

(** ** Counting *)

(** How many requests went out to the generation service. *)
Definition request_count (fx : list Effect) : nat :=
  List.length (filter is_request fx).

(** The effects of the generator among what a page step shows. *)
Definition core_effects (fx : list PageEffect) : list Effect :=
  flat_map (fun w => match w with Core e => [e] | _ => [] end) fx.

(** ** Sample page objects *)

Module PageSample.

Definition configure_ok (key : string) : Outcome unit := Returned tt.

Definition configure_refused (key : string) : Outcome unit :=
  Raised (mkExc "ValueError" IsOtherException "invalid API key" None None).

Definition model_ok (name : string) : Outcome GenerativeModel :=
  Returned (mkModel (fun _ =>
    Returned (Sample.response_with Sample.STOP Sample.four_keys_text))).

Definition env_with_key : Environ := mkEnviron (Some "key-1") None.

Definition env_without_key : Environ := mkEnviron None None.

(** A session in which nothing has happened yet. *)
Definition empty_page (env : Environ) : PageState :=
  mkPage_state env None None None None None None None.

(** The key field left as it was created. *)
Definition untouched (initial : string) : string := initial.

(** The user types ["key-2"] into the key field. *)
Definition types_key_2 (initial : string) : string := "key-2".

(** The user clears the key field. *)
Definition clears (initial : string) : string := "".

(** A finish reason the code has no label for. *)
Definition REASON_7 : PyEnum := mkEnum 7 "7" "7".

(** A candidate cut short by the token limit, rated, that carries [t]. *)
Definition rated_candidate (t : string) : Candidate :=
  mkCandidate Sample.MAX_TOKENS
              [mkRating "HARM_CATEGORY_HARASSMENT" "NEGLIGIBLE"]
              (Some (mkContent [mkPart (Some t)])).

(** A candidate with no content. *)
Definition bare_candidate (reason : PyEnum) : Candidate :=
  mkCandidate reason [] None.

(** A configured generator whose service answers with one candidate. *)
Definition generator_with (c : Candidate) : AIQuestionGenerator :=
  Sample.generator_answering (Returned (mkResponse None [c])).

(** The text [{"technical": [1]}]. *)
Definition number_text : string :=
  "{" ++ dq ++ "technical" ++ dq ++ ": [1]}".

(** The generator [__init__] builds when all goes well, and the page
    after the sidebar has run once on an empty session. *)
Definition ready_object : GeneratorObject :=
  snd (__init__ configure_ok model_ok env_with_key).

Definition ready_page : PageState :=
  snd (sidebar configure_ok model_ok untouched (empty_page env_with_key)).

(** The bytes of an uploaded file. *)
Definition some_bytes : list Byte.byte := [Byte.x25; Byte.x50; Byte.x44; Byte.x46].

(** The page once the resume of [Sample.two_pages] is stored, and once a
    scan with no text layer is stored. *)
Definition stored_resume : Upload :=
  mkUpload "cv.pdf" some_bytes (Some "Jane Doe Python, SQL").

Definition page_with_resume : PageState :=
  mkPage_state env_with_key (Some "key-1") (Some "gemini") (Some ready_object)
               (Some stored_resume) None None None.

Definition page_with_scan : PageState :=
  mkPage_state env_with_key (Some "key-1") (Some "gemini") (Some ready_object)
               (Some (mkUpload "scan.pdf" some_bytes (Some ""))) None None None.

(** An opened document with no text layer. *)
Definition scanned_pdf : Document :=
  mkDocument [mkPage (Returned ""); mkPage (Returned "")] (Returned tt).

Definition fitz_open_scanned (pdf_bytes : list Byte.byte) : Outcome Document :=
  Returned scanned_pdf.

End PageSample.

(* ===================================================================== *)
(** * Properties *)
(* ===================================================================== *)

(** ** Computations *)

Lemma bind_returned {A B} (fx : list Effect) (a : A) (k : A -> Run B) :
  bind (fx, Returned a) k = ((fx ++ fst (k a))%list, snd (k a)).
Proof. unfold bind. destruct (k a); reflexivity. Qed.

Lemma bind_raised {A B} (fx : list Effect) (e : PyExc) (k : A -> Run B) :
  bind (fx, Raised e) k = (fx, Raised e).
Proof. reflexivity. Qed.

Lemma try_except_returned {A} (fx : list Effect) (a : A) (h : PyExc -> Run A) :
  try_except (fx, Returned a) h = (fx, Returned a).
Proof. reflexivity. Qed.

Lemma try_except_raised {A} (fx : list Effect) (e : PyExc) (h : PyExc -> Run A) :
  try_except (fx, Raised e) h = ((fx ++ fst (h e))%list, snd (h e)).
Proof. unfold try_except. destruct (h e); reflexivity. Qed.

Lemma return_error_structure_eq (ui : string) (d : option string) :
  exists m, _return_error_structure ui d = ([StError ui], Returned (error_structure m)).
Proof.
  unfold _return_error_structure.
  destruct d as [m|]; [destruct (str_truthy m)|]; eexists; reflexivity.
Qed.


Lemma quiet_app (fx fx' : list Effect) :
  quiet (fx ++ fx')%list <-> quiet fx /\ quiet fx'.
Proof. unfold quiet. rewrite existsb_app, orb_false_iff. tauto. Qed.

(** ** The three ways [generate_questions_from_text] ends *)

Lemma ending_error (pre : list Effect) (ui : string) (d : option string) :
  quiet pre ->
  Ending ((pre ++ fst (_return_error_structure ui d))%list,
          snd (_return_error_structure ui d)).
Proof.
  intros Hq. destruct (return_error_structure_eq ui d) as [m ->].
  simpl. now constructor.
Qed.

Lemma ending_prefix (pre : list Effect) (r : Run QuestionSet) :
  quiet pre -> Ending r -> Ending ((pre ++ fst r)%list, snd r).
Proof.
  intros Hq Hr. destruct Hr as [p ui m Hp|p d Hp|p e Hp]; simpl.
  - rewrite app_assoc. constructor. now apply quiet_app.
  - constructor. now apply quiet_app.
  - constructor. now apply quiet_app.
Qed.

Section GatewayFacts.

Variable json_loads : string -> Outcome json.

Lemma decode_candidate_ending (c : Candidate) :
  Ending (decode_candidate json_loads c).
Proof.
  unfold decode_candidate.
  destruct (negb (str_truthy (strip (candidate_text c)))).
  - apply (ending_error []). reflexivity.
  - destruct (json_loads (clean_generated_text (candidate_text c))) as [v|e].
    + unfold lift. rewrite bind_returned. simpl.
      destruct v; try (apply (EndRaised []); reflexivity).
      apply (EndDecoded []). reflexivity.
    + apply (EndRaised []). reflexivity.
Qed.

Lemma check_finish_reason_ending (c : Candidate) :
  Ending (check_finish_reason json_loads c).
Proof.
  unfold check_finish_reason.
  destruct (negb (enum_value (finish_reason c) =? 1)%Z);
    [|apply decode_candidate_ending].
  destruct (safety_ratings c) as [|r rs];
    (destruct (match content_parts c with Some ps => any_text ps | None => false end);
     [ unfold emit; rewrite bind_returned;
       apply ending_prefix; [reflexivity|apply decode_candidate_ending]
     | apply (ending_error []); reflexivity ]).
Qed.

Lemma questions_try_ending (model : GenerativeModel) (prompt : string) :
  Ending (questions_try json_loads model prompt).
Proof.
  unfold questions_try, emit, lift. rewrite bind_returned. cbn [fst snd app].
  destruct (generate_content model prompt) as [response|e].
  - rewrite bind_returned.
    destruct (prompt_blocked response) as [pf|].
    + apply ending_error. reflexivity.
    + destruct (candidates response) as [|c cs].
      * apply ending_error. reflexivity.
      * apply ending_prefix; [reflexivity|apply check_finish_reason_ending].
  - apply EndRaised. reflexivity.
Qed.

Lemma questions_except_ending (e : PyExc) : Ending (questions_except e).
Proof.
  unfold questions_except.
  destruct (exc_class e).
  - apply (ending_error []). reflexivity.
  - destruct (exc_message e); [destruct (exc_code e)|];
      try (apply (EndRaised []); reflexivity).
    apply (ending_error []). reflexivity.
  - apply (ending_error []). reflexivity.
Qed.

Lemma generate_questions_ending (self : AIQuestionGenerator) (resume : string)
    (jd : option string) :
  Ending (generate_questions_from_text json_loads self resume jd).
Proof.
  unfold generate_questions_from_text.
  destruct (client self) as [model|]; [|apply (ending_error []); reflexivity].
  destruct (negb (is_configured self)); [apply (ending_error []); reflexivity|].
  generalize (build_prompt resume jd). intros prompt.
  destruct (questions_try_ending model prompt) as [p ui m Hp|p d Hp|p e Hp].
  - rewrite try_except_returned. now constructor.
  - rewrite try_except_returned. now constructor.
  - rewrite try_except_raised. apply ending_prefix; [assumption|].
    apply questions_except_ending.
Qed.


(** Conversely, a dictionary returned without any reported error is the
    lenient merge of a decoded JSON object. *)
Lemma quiet_outcome_decoded (self : AIQuestionGenerator) (resume : string)
    (jd : option string) (fx : list Effect) (qs : QuestionSet) :
  generate_questions_from_text json_loads self resume jd = (fx, Returned qs) ->
  quiet fx ->
  exists d, qs = question_set_of d.
Proof.
  intros Hrun Hq.
  pose proof (generate_questions_ending self resume jd) as Hend.
  rewrite Hrun in Hend.
  inversion Hend as [pre ui m Hp Hfx|pre d Hp Hfx|]; subst.
  - apply quiet_app in Hq. destruct Hq as [_ Hq]. discriminate Hq.
  - now exists d.
Qed.

End GatewayFacts.

(** ** Strings and candidate text *)

Lemma append_empty_r (s : string) : s ++ "" = s.
Proof. induction s as [|c s IH]; simpl; [reflexivity|now rewrite IH]. Qed.

Lemma append_assoc (a b c : string) : (a ++ b) ++ c = a ++ (b ++ c).
Proof. induction a as [|x a IH]; simpl; [reflexivity|now rewrite IH]. Qed.

Lemma length_append (a b : string) :
  String.length (a ++ b) = String.length a + String.length b.
Proof. induction a as [|x a IH]; simpl; [reflexivity|now rewrite IH]. Qed.

Lemma join_nosep_cons (x : string) (xs : list string) :
  join "" (x :: xs) = x ++ join "" xs.
Proof. destruct xs; simpl; [now rewrite append_empty_r|reflexivity]. Qed.

Lemma str_truthy_append (a b : string) :
  str_truthy (a ++ b) = str_truthy a || str_truthy b.
Proof. destruct a; reflexivity. Qed.

Lemma str_truthy_false (s : string) : str_truthy s = false <-> s = "".
Proof. destruct s; simpl; split; congruence. Qed.

Lemma strip_empty : strip "" = "".
Proof. reflexivity. Qed.

Lemma strip_truthy (s : string) : str_truthy (strip s) = true -> str_truthy s = true.
Proof. destruct s; [discriminate|reflexivity]. Qed.

(** The test for usable partial content (line 155) and the text joined
    from the parts (line 162) agree: some part has text exactly when the
    joined text is non-empty. *)
Lemma any_text_join (ps : list Part) : any_text ps = str_truthy (join_text ps).
Proof.
  unfold any_text, join_text.
  induction ps as [|p ps IH]; [reflexivity|].
  cbn [existsb flat_map]. destruct (text p) as [t|]; [|exact IH].
  destruct (str_truthy t) eqn:Ht; cbn [app orb].
  - rewrite join_nosep_cons, str_truthy_append, Ht. reflexivity.
  - exact IH.
Qed.

Lemma usable_content_iff_text (c : Candidate) :
  match content_parts c with Some ps => any_text ps | None => false end
  = str_truthy (candidate_text c).
Proof.
  unfold candidate_text. destruct (content_parts c); [apply any_text_join|reflexivity].
Qed.

Lemma startswith_append (p s : string) : startswith (p ++ s) p = true.
Proof.
  unfold startswith. induction p as [|c p IH]; simpl.
  - destruct s; reflexivity.
  - destruct (ascii_dec c c); [exact IH|congruence].
Qed.

Lemma slice_from_append (a b : string) : slice_from (String.length a) (a ++ b) = b.
Proof. induction a as [|c a IH]; simpl; [reflexivity|exact IH]. Qed.

Lemma slice_to_append (a b : string) : slice_to (String.length a) (a ++ b) = a.
Proof.
  induction a as [|c a IH]; simpl; [now destruct b|now rewrite IH].
Qed.

Lemma endswith_append (s p : string) : endswith (s ++ p) p = true.
Proof.
  unfold endswith. rewrite length_append.
  replace (String.length s + String.length p - String.length p)
    with (String.length s) by lia.
  rewrite slice_from_append, String.eqb_refl, andb_true_r.
  apply Nat.leb_le. lia.
Qed.

Lemma slice_to_neg_append (s p : string) :
  slice_to_neg (String.length p) (s ++ p) = s.
Proof.
  unfold slice_to_neg. rewrite length_append.
  replace (String.length s + String.length p - String.length p)
    with (String.length s) by lia.
  apply slice_to_append.
Qed.

(** Lines 171-175 on a fenced text: both fences go, the body stays as it
    is. *)
Lemma clean_fenced (generated_text body : string) :
  strip generated_text = "```json" ++ body ++ "```" ->
  clean_generated_text generated_text = body.
Proof.
  intros Hs. unfold clean_generated_text. rewrite Hs.
  rewrite startswith_append.
  change 7 with (String.length "```json").
  rewrite slice_from_append, endswith_append.
  apply (slice_to_neg_append body "```").
Qed.

(** Lines 171-175 on a text with no fence and no surrounding white space:
    nothing changes. *)
Lemma clean_plain (generated_text : string) :
  strip generated_text = generated_text ->
  startswith generated_text "```json" = false ->
  endswith generated_text "```" = false ->
  clean_generated_text generated_text = generated_text.
Proof.
  intros Hs Hp He. unfold clean_generated_text. now rewrite Hs, Hp, He.
Qed.

(** ** Decoding the first candidate *)

Section DecodingFacts.

Variable json_loads : string -> Outcome json.

Lemma run_first_candidate (self : AIQuestionGenerator) (resume : string)
    (jd : option string) (c : Candidate) :
  first_candidate self (build_prompt resume jd) c ->
  generate_questions_from_text json_loads self resume jd
  = try_except
      ((GenerateContent (build_prompt resume jd)
          :: fst (check_finish_reason json_loads c))%list,
       snd (check_finish_reason json_loads c))
      questions_except.
Proof.
  intros (model & response & Hc & Hconf & Hcall & Hblock & Hhead).
  unfold generate_questions_from_text. rewrite Hc, Hconf. cbn [negb].
  f_equal. unfold questions_try, emit, lift.
  rewrite bind_returned. cbn [fst snd app]. rewrite Hcall, bind_returned, Hblock.
  destruct (candidates response) as [|c0 cs]; [discriminate|].
  injection Hhead as ->. reflexivity.
Qed.

Lemma decode_candidate_ext (c1 c2 : Candidate) :
  str_truthy (strip (candidate_text c1)) = str_truthy (strip (candidate_text c2)) ->
  clean_generated_text (candidate_text c1) = clean_generated_text (candidate_text c2) ->
  decode_candidate json_loads c1 = decode_candidate json_loads c2.
Proof. intros H1 H2. unfold decode_candidate. now rewrite H1, H2. Qed.

Lemma check_finish_reason_ext (c1 c2 : Candidate) :
  finish_reason c1 = finish_reason c2 ->
  safety_ratings c1 = safety_ratings c2 ->
  str_truthy (candidate_text c1) = str_truthy (candidate_text c2) ->
  decode_candidate json_loads c1 = decode_candidate json_loads c2 ->
  check_finish_reason json_loads c1 = check_finish_reason json_loads c2.
Proof.
  intros Hf Hs Ht Hd. unfold check_finish_reason.
  rewrite !usable_content_iff_text, Hf, Hs, Ht, Hd. reflexivity.
Qed.

(** A candidate whose text is not blank and cleans to a JSON object is
    decoded, with at most a warning on the way. *)
Lemma check_finish_reason_decoded (c : Candidate) (d : list (string * json)) :
  str_truthy (strip (candidate_text c)) = true ->
  json_loads (clean_generated_text (candidate_text c)) = Returned (JObject d) ->
  exists fx,
    check_finish_reason json_loads c = (fx, Returned (question_set_of d))
    /\ quiet fx.
Proof.
  intros Ht Hj.
  assert (Hd : decode_candidate json_loads c = ([], Returned (question_set_of d))).
  { unfold decode_candidate. rewrite Ht, Hj. reflexivity. }
  unfold check_finish_reason. rewrite usable_content_iff_text, Hd.
  rewrite (strip_truthy _ Ht).
  destruct (negb (enum_value (finish_reason c) =? 1)%Z).
  - destruct (safety_ratings c); eexists; split; reflexivity.
  - exists []. split; reflexivity.
Qed.

Lemma decoded_run (self : AIQuestionGenerator) (resume : string)
    (jd : option string) (c : Candidate) (d : list (string * json)) :
  first_candidate self (build_prompt resume jd) c ->
  str_truthy (strip (candidate_text c)) = true ->
  json_loads (clean_generated_text (candidate_text c)) = Returned (JObject d) ->
  exists fx,
    generate_questions_from_text json_loads self resume jd
    = (fx, Returned (question_set_of d))
    /\ quiet fx.
Proof.
  intros Hfirst Ht Hj.
  rewrite (run_first_candidate _ _ _ _ Hfirst).
  destruct (check_finish_reason_decoded c d Ht Hj) as (fx & -> & Hq).
  eexists. split; [reflexivity|]. exact Hq.
Qed.

(** C5.  Round trip.  When the text of the first candidate, trimmed and
    unfenced as lines 171-175 do, parses as a JSON object that contains
    exactly the four keys [technical], [behavioral], [project_specific]
    and [scenario_based], each mapped to a sequence of strings, then
    [generate_questions_from_text] returns, without reporting any error,
    the dictionary that maps each of the four keys to the same sequence in
    the same order: it equals the parsed map key for key. *)
Theorem well_formed_payload_round_trip (self : AIQuestionGenerator)
    (resume : string) (jd : option string) (c : Candidate)
    (d : list (string * json)) (tech behav proj scen : list string) :
  first_candidate self (build_prompt resume jd) c ->
  str_truthy (strip (candidate_text c)) = true ->
  json_loads (clean_generated_text (candidate_text c)) = Returned (JObject d) ->
  (forall k, dict_lookup d k <> None ->
             In k ["technical"; "behavioral"; "project_specific"; "scenario_based"]) ->
  dict_lookup d "technical" = Some (JArray (map JString tech)) ->
  dict_lookup d "behavioral" = Some (JArray (map JString behav)) ->
  dict_lookup d "project_specific" = Some (JArray (map JString proj)) ->
  dict_lookup d "scenario_based" = Some (JArray (map JString scen)) ->
  exists fx,
    generate_questions_from_text json_loads self resume jd
    = (fx, Returned (mkQuestionSet (JArray (map JString tech))
                                   (JArray (map JString behav))
                                   (JArray (map JString proj))
                                   (JArray (map JString scen))))
    /\ quiet fx
    /\ forall k,
         dict_lookup
           (items (mkQuestionSet (JArray (map JString tech))
                                 (JArray (map JString behav))
                                 (JArray (map JString proj))
                                 (JArray (map JString scen)))) k
         = dict_lookup d k.
Proof.
  intros Hfirst Ht Hj Hkeys H1 H2 H3 H4.
  destruct (decoded_run self resume jd c d Hfirst Ht Hj) as (fx & Hrun & Hq).
  exists fx. split; [|split; [exact Hq|]].
  - rewrite Hrun. unfold question_set_of, dict_get.
    now rewrite H1, H2, H3, H4.
  - intros k.
    destruct (dict_lookup d k) as [v|] eqn:Hk.
    + assert (Hin : In k ["technical"; "behavioral"; "project_specific";
                          "scenario_based"])
        by (apply Hkeys; congruence).
      simpl in Hin.
      destruct Hin as [<-|[<-|[<-|[<-|[]]]]]; rewrite <- Hk; simpl; congruence.
    + cbn [items dict_lookup technical behavioral project_specific scenario_based].
      destruct (String.eqb "scenario_based" k) eqn:E4;
        [apply String.eqb_eq in E4; congruence|].
      destruct (String.eqb "project_specific" k) eqn:E3;
        [apply String.eqb_eq in E3; congruence|].
      destruct (String.eqb "behavioral" k) eqn:E2;
        [apply String.eqb_eq in E2; congruence|].
      destruct (String.eqb "technical" k) eqn:E1;
        [apply String.eqb_eq in E1; congruence|].
      reflexivity.
Qed.

(** C6.  Lenient merge.  When the text of the first candidate parses as a
    JSON object, whatever its keys, [generate_questions_from_text] returns
    without reporting any error; each of the four expected keys holds the
    value the object gives it, or the empty sequence when the object lacks
    it; and the result depends on nothing but the object's bindings of
    those four keys. *)
Theorem missing_and_extra_keys_tolerated (self : AIQuestionGenerator)
    (resume : string) (jd : option string) (c : Candidate)
    (d : list (string * json)) :
  first_candidate self (build_prompt resume jd) c ->
  str_truthy (strip (candidate_text c)) = true ->
  json_loads (clean_generated_text (candidate_text c)) = Returned (JObject d) ->
  exists fx qs,
    generate_questions_from_text json_loads self resume jd = (fx, Returned qs)
    /\ quiet fx
    /\ (forall k v, In (k, v) (items qs) ->
          match dict_lookup d k with
          | Some v' => v = v'
          | None => v = JArray []
          end)
    /\ (forall d',
          (forall k, In k ["technical"; "behavioral"; "project_specific";
                           "scenario_based"] ->
                     dict_lookup d' k = dict_lookup d k) ->
          question_set_of d' = qs).
Proof.
  intros Hfirst Ht Hj.
  destruct (decoded_run self resume jd c d Hfirst Ht Hj) as (fx & Hrun & Hq).
  exists fx, (question_set_of d). repeat split; try assumption.
  - intros k v Hin. simpl in Hin. unfold dict_get in Hin.
    destruct Hin as [E|[E|[E|[E|[]]]]]; injection E as <- <-;
      destruct (dict_lookup d _); reflexivity.
  - intros d' Hsame. unfold question_set_of, dict_get.
    rewrite !Hsame by (simpl; tauto). reflexivity.
Qed.

End DecodingFacts.

(** ** The causes of failure, one by one *)

Section FailureCauses.

Variable json_loads : string -> Outcome json.

Variables (self : AIQuestionGenerator) (resume : string) (jd : option string).


Lemma run_call_raised (model : GenerativeModel) (e : PyExc) :
  client self = Some model ->
  is_configured self = true ->
  generate_content model (build_prompt resume jd) = Raised e ->
  generate_questions_from_text json_loads self resume jd
  = try_except ([GenerateContent (build_prompt resume jd)], Raised e)
               questions_except.
Proof.
  intros Hc Hconf Hcall.
  unfold generate_questions_from_text. rewrite Hc, Hconf. cbn [negb].
  unfold questions_try, emit, lift.
  rewrite bind_returned. cbn [fst snd app]. rewrite Hcall. reflexivity.
Qed.

(** Transport error: a Google API error that has the attributes line 195
    reads. *)
Lemma transport_error_failure (model : GenerativeModel) (e : PyExc)
    (message code : string) :
  client self = Some model ->
  is_configured self = true ->
  generate_content model (build_prompt resume jd) = Raised e ->
  exc_class e = IsGoogleAPIError ->
  exc_message e = Some message ->
  exc_code e = Some code ->
  generate_questions_from_text json_loads self resume jd
  = ([GenerateContent (build_prompt resume jd);
      StError ("Gemini API Error: " ++ message ++ " (Code: " ++ code ++ ")")],
     Returned (error_structure ("Gemini API Error: " ++ message))).
Proof.
  intros Hc Hconf Hcall Hcl Hm Hcode.
  rewrite (run_call_raised model e Hc Hconf Hcall), try_except_raised.
  unfold questions_except. rewrite Hcl, Hm, Hcode. reflexivity.
Qed.


Lemma run_call_returned (model : GenerativeModel) (response : GenerateContentResponse) :
  client self = Some model ->
  is_configured self = true ->
  generate_content model (build_prompt resume jd) = Returned response ->
  generate_questions_from_text json_loads self resume jd
  = try_except
      (response <- ([GenerateContent (build_prompt resume jd)], Returned response) ;;
       match prompt_blocked response with
       | Some pf =>
           _return_error_structure
             ("Gemini API blocked the prompt. Reason: "
                ++ enum_str (block_reason pf) ++ "." ++ nl
                ++ "Safety Ratings:" ++ nl
                ++ format_ratings (feedback_safety_ratings pf))
             (Some ("Prompt blocked by safety settings (Reason: "
                      ++ enum_str (block_reason pf) ++ ")."))
       | None =>
           match candidates response with
           | [] =>
               _return_error_structure
                 "Gemini API returned no candidates in the response."
                 (Some "No candidates in API response.")
           | candidate :: _ => check_finish_reason json_loads candidate
           end
       end)
      questions_except.
Proof.
  intros Hc Hconf Hcall.
  unfold generate_questions_from_text. rewrite Hc, Hconf. cbn [negb].
  unfold questions_try, emit, lift.
  rewrite bind_returned. cbn [fst snd app]. rewrite Hcall. reflexivity.
Qed.

(** Blocked prompt. *)
Lemma blocked_prompt_failure (model : GenerativeModel)
    (response : GenerateContentResponse) (pf : PromptFeedback) :
  client self = Some model ->
  is_configured self = true ->
  generate_content model (build_prompt resume jd) = Returned response ->
  prompt_blocked response = Some pf ->
  generate_questions_from_text json_loads self resume jd
  = ([GenerateContent (build_prompt resume jd);
      StError ("Gemini API blocked the prompt. Reason: "
                 ++ enum_str (block_reason pf) ++ "." ++ nl
                 ++ "Safety Ratings:" ++ nl
                 ++ format_ratings (feedback_safety_ratings pf))],
     Returned (error_structure
                 ("Prompt blocked by safety settings (Reason: "
                    ++ enum_str (block_reason pf) ++ ")."))).
Proof.
  intros Hc Hconf Hcall Hb.
  rewrite (run_call_returned model response Hc Hconf Hcall).
  rewrite bind_returned, Hb. reflexivity.
Qed.


(** Atypical termination with no usable content. *)
Lemma atypical_termination_failure (c : Candidate) :
  first_candidate self (build_prompt resume jd) c ->
  enum_value (finish_reason c) <> 1%Z ->
  candidate_text c = "" ->
  exists ui,
    generate_questions_from_text json_loads self resume jd
    = ([GenerateContent (build_prompt resume jd); StError ui],
       Returned (error_structure
                   ("API request finished: " ++ reason_str (finish_reason c) ++ "."
                      ++ match safety_ratings c with
                         | [] => ""
                         | _ => " Check safety ratings."
                         end))).
Proof.
  intros Hfirst Hfin Htext.
  rewrite (run_first_candidate json_loads _ _ _ _ Hfirst).
  unfold check_finish_reason.
  apply Z.eqb_neq in Hfin. rewrite Hfin. cbn [negb].
  rewrite usable_content_iff_text, Htext.
  destruct (safety_ratings c); eexists;
    cbn [str_truthy]; rewrite ?append_assoc, ?append_empty_r; reflexivity.
Qed.


(** Malformed JSON. *)
Lemma malformed_json_failure (c : Candidate) (e : PyExc) :
  first_candidate self (build_prompt resume jd) c ->
  str_truthy (strip (candidate_text c)) = true ->
  json_loads (clean_generated_text (candidate_text c)) = Raised e ->
  exc_class e = IsJSONDecodeError ->
  outcome (generate_questions_from_text json_loads self resume jd)
  = Returned (error_structure ("Malformed JSON from API: " ++ exc_str e))
  /\ reports_error
       (effects (generate_questions_from_text json_loads self resume jd)).
Proof.
  intros Hfirst Ht Hj Hcl.
  rewrite (run_first_candidate json_loads _ _ _ _ Hfirst).
  assert (Hd : decode_candidate json_loads c = ([], Raised e)).
  { unfold decode_candidate. rewrite Ht, Hj. reflexivity. }
  unfold check_finish_reason.
  rewrite usable_content_iff_text, Hd, (strip_truthy _ Ht).
  destruct (negb (enum_value (finish_reason c) =? 1)%Z);
    [destruct (safety_ratings c)|];
    cbn [emit bind app fst snd]; rewrite try_except_raised;
    unfold questions_except; rewrite Hcl; split;
    try reflexivity; unfold reports_error, effects; cbn [fst];
    rewrite !existsb_app; cbn; now rewrite ?orb_true_r.
Qed.

(** A document that is valid JSON but no object: [questions.get] fails and
    the last handler shapes the failure. *)
Lemma not_an_object_failure (c : Candidate) (v : json) :
  first_candidate self (build_prompt resume jd) c ->
  str_truthy (strip (candidate_text c)) = true ->
  json_loads (clean_generated_text (candidate_text c)) = Returned v ->
  (forall d, v <> JObject d) ->
  outcome (generate_questions_from_text json_loads self resume jd)
  = Returned (error_structure
                ("Unexpected error: '" ++ type_name v
                   ++ "' object has no attribute 'get'"))
  /\ reports_error
       (effects (generate_questions_from_text json_loads self resume jd)).
Proof.
  intros Hfirst Ht Hj Hno.
  rewrite (run_first_candidate json_loads _ _ _ _ Hfirst).
  assert (Hd : decode_candidate json_loads c
               = ([], Raised (attribute_error (type_name v) "get"))).
  { unfold decode_candidate. rewrite Ht, Hj.
    destruct v; try reflexivity. now destruct (Hno pairs). }
  unfold check_finish_reason.
  rewrite usable_content_iff_text, Hd, (strip_truthy _ Ht).
  destruct (negb (enum_value (finish_reason c) =? 1)%Z);
    [destruct (safety_ratings c)|];
    cbn [emit bind app fst snd]; rewrite try_except_raised;
    split; try reflexivity; unfold reports_error, effects; cbn [fst];
    rewrite !existsb_app; cbn; now rewrite ?orb_true_r.
Qed.

End FailureCauses.

(** ** Every cause of failure ends in the failure dictionary *)

Section ClassifiedFailures.

Variable json_loads : string -> Outcome json.





End ClassifiedFailures.

(** ** Code fences *)

Section FenceFacts.

Variable json_loads : string -> Outcome json.

(** C7, as the code has it.  When the text of the first candidate, trimmed,
    is ["```json" ++ body ++ "```"], the text handed to [json.loads] is
    exactly [body].  The result is then the one of a response that differs
    only in carrying [body] alone, provided [body] is not blank and
    [json.loads] reads [body] as it reads [body] trimmed and unfenced (as
    it does for a document surrounded by spaces, tabs and line breaks). *)
Theorem fenced_text_parses_as_body (self1 self2 : AIQuestionGenerator)
    (resume : string) (jd : option string) (c1 c2 : Candidate) (body : string) :
  first_candidate self1 (build_prompt resume jd) c1 ->
  first_candidate self2 (build_prompt resume jd) c2 ->
  finish_reason c1 = finish_reason c2 ->
  safety_ratings c1 = safety_ratings c2 ->
  strip (candidate_text c1) = "```json" ++ body ++ "```" ->
  candidate_text c2 = body ->
  clean_generated_text (candidate_text c1) = body
  /\ (str_truthy (strip body) = true ->
      json_loads (clean_generated_text body) = json_loads body ->
      generate_questions_from_text json_loads self1 resume jd
      = generate_questions_from_text json_loads self2 resume jd).
Proof.
  intros Hf1 Hf2 Hfin Hsafe Hfenced Hbody.
  pose proof (clean_fenced _ _ Hfenced) as Hclean.
  split; [exact Hclean|].
  intros Hnb Hsame.
  rewrite (run_first_candidate json_loads _ _ _ _ Hf1).
  rewrite (run_first_candidate json_loads _ _ _ _ Hf2).
  assert (Ht1 : str_truthy (strip (candidate_text c1)) = true)
    by (rewrite Hfenced; reflexivity).
  assert (Hd : decode_candidate json_loads c1 = decode_candidate json_loads c2).
  { unfold decode_candidate.
    rewrite Ht1, Hclean, Hbody, Hnb, Hsame. reflexivity. }
  rewrite (check_finish_reason_ext json_loads c1 c2 Hfin Hsafe); try assumption.
  - reflexivity.
  - rewrite (strip_truthy _ Ht1), Hbody, (strip_truthy _ Hnb). reflexivity.
Qed.

End FenceFacts.

(** ** The prompt *)

Section PromptFacts.

Variable json_loads : string -> Outcome json.

(** C4.  A configured generator sends one prompt first, and that prompt is
    the template around the resume text and a section which is the
    sentence ["No job description provided."] when the job description is
    absent, empty or blank, and otherwise the job description block that
    embeds the job description as it was given. *)
Theorem prompt_job_description_section (self : AIQuestionGenerator)
    (model : GenerativeModel) (resume : string) (jd : option string) :
  client self = Some model ->
  is_configured self = true ->
  exists fx,
    effects (generate_questions_from_text json_loads self resume jd)
    = GenerateContent
        (prompt_head ++ resume ++ prompt_mid
           ++ match jd with
              | None => "No job description provided."
              | Some s =>
                  if String.eqb (strip s) ""
                  then "No job description provided."
                  else nl ++ "        **Job Description:**" ++ nl
                          ++ "        ---" ++ nl
                          ++ "        " ++ s ++ nl
                          ++ "        ---"
              end
           ++ prompt_tail)
      :: fx.
Proof.
  intros Hc Hconf.
  assert (Hsec : job_description_section jd
                 = match jd with
                   | None => "No job description provided."
                   | Some s =>
                       if String.eqb (strip s) ""
                       then "No job description provided."
                       else nl ++ "        **Job Description:**" ++ nl
                               ++ "        ---" ++ nl
                               ++ "        " ++ s ++ nl
                               ++ "        ---"
                   end).
  { unfold job_description_section. destruct jd as [s|]; [|reflexivity].
    destruct s as [|a s]; [reflexivity|].
    cbn [str_truthy andb].
    destruct (strip (String a s)); reflexivity. }
  rewrite <- Hsec. fold (build_prompt resume jd).
  unfold generate_questions_from_text. rewrite Hc, Hconf. cbn [negb].
  unfold questions_try, emit, lift.
  rewrite bind_returned. cbn [fst snd app].
  generalize (build_prompt resume jd). intros prompt.
  destruct (generate_content model prompt) as [response|e].
  - rewrite bind_returned.
    match goal with
    | |- context [try_except (?a, ?b) _] =>
        destruct b; [rewrite try_except_returned|rewrite try_except_raised]
    end; eexists; reflexivity.
  - rewrite bind_raised, try_except_raised. eexists. reflexivity.
Qed.

End PromptFacts.

(** ** Exceptions at the boundary *)

Section BoundaryFacts.

Variable json_loads : string -> Outcome json.

(** The handlers of lines 186-202 let an exception out in one case only:
    the exception caught is a [GoogleAPIError] that lacks the attribute
    [message] or the attribute [code], which line 195 reads. *)
Lemma questions_except_raises (e0 e : PyExc) (fx : list Effect) :
  questions_except e0 = (fx, Raised e) ->
  exc_class e0 = IsGoogleAPIError
  /\ ((exc_message e0 = None /\ e = attribute_error (exc_type_name e0) "message")
      \/ (exc_code e0 = None /\ e = attribute_error (exc_type_name e0) "code")).
Proof.
  unfold questions_except.
  destruct (exc_class e0).
  - destruct (return_error_structure_eq
                ("Error decoding JSON from AI response: " ++ exc_str e0
                   ++ ". Check the raw response below.")
                (Some ("Malformed JSON from API: " ++ exc_str e0))) as [m ->].
    discriminate.
  - destruct (exc_message e0) as [m|]; [destruct (exc_code e0) as [c|]|].
    + cbn. discriminate.
    + intros H. injection H as _ <-. split; [reflexivity|]. right. now split.
    + intros H. injection H as _ <-. split; [reflexivity|]. left. now split.
  - cbn. discriminate.
Qed.

Lemma generate_questions_raises (self : AIQuestionGenerator) (resume : string)
    (jd : option string) (fx : list Effect) (e : PyExc) :
  generate_questions_from_text json_loads self resume jd = (fx, Raised e) ->
  exists e0 attr,
    exc_class e0 = IsGoogleAPIError
    /\ e = attribute_error (exc_type_name e0) attr
    /\ ((attr = "message" /\ exc_message e0 = None)
        \/ (attr = "code" /\ exc_code e0 = None)).
Proof.
  unfold generate_questions_from_text.
  destruct (client self) as [model|]; [|discriminate].
  destruct (negb (is_configured self)); [discriminate|].
  destruct (questions_try json_loads model (build_prompt resume jd))
    as [fx0 [qs|e0]].
  - rewrite try_except_returned. discriminate.
  - rewrite try_except_raised. intros H.
    destruct (questions_except e0) as [fx1 o] eqn:Hh.
    cbn [fst snd] in H. injection H as _ ->.
    destruct (questions_except_raises e0 e fx1 Hh) as [Hcl [[Hm ->]|[Hc ->]]];
      exists e0; eexists; (split; [exact Hcl|split; [reflexivity|tauto]]).
Qed.

(** [generate_answer_for_question] always returns a string. *)
Lemma generate_answer_returns (self : AIQuestionGenerator) (question_text : string) :
  exists fx answer,
    generate_answer_for_question self question_text = (fx, Returned answer).
Proof.
  unfold generate_answer_for_question.
  destruct (client self) as [model|]; [|eexists; eexists; reflexivity].
  destruct (negb (is_configured self)); [eexists; eexists; reflexivity|].
  destruct (negb (str_truthy question_text)); [eexists; eexists; reflexivity|].
  destruct (answer_try model (answer_prompt question_text)) as [fx [a|e]].
  - rewrite try_except_returned. eexists; eexists; reflexivity.
  - rewrite try_except_raised. eexists; eexists; reflexivity.
Qed.

(** C2, at the failing input.  The service call ends in a [RetryError], a
    [GoogleAPIError] with a [message] and no [code]: the handler of line
    193 catches it, reads [ge.code] at line 195, and the [AttributeError]
    of that read leaves [generate_questions_from_text]. *)
Theorem retry_error_escapes :
  generate_questions_from_text json_loads
    (Sample.generator_answering (Raised Sample.retry_error)) "resume" None
  = ([GenerateContent (build_prompt "resume" None)],
     Raised (attribute_error "RetryError" "code")).
Proof. reflexivity. Qed.

End BoundaryFacts.

(** ** [generate_answer_for_question] *)

(** What a configured generator returns for a non-empty question once
    its service has returned a response. *)
Lemma answer_run (self : AIQuestionGenerator) (model : GenerativeModel)
    (question_text : string) (response : GenerateContentResponse) :
  client self = Some model ->
  is_configured self = true ->
  str_truthy question_text = true ->
  generate_content model (answer_prompt question_text) = Returned response ->
  generate_answer_for_question self question_text
  = ([GenerateContent (answer_prompt question_text)],
     Returned
       match prompt_blocked response with
       | Some pf =>
           "Answer generation blocked by Gemini. Reason: "
             ++ enum_format (block_reason pf)
       | None =>
           match candidates response with
           | [] => "Gemini returned no candidates for the answer."
           | c :: _ =>
               if (enum_value (finish_reason c) =? 1)%Z then
                 match content_parts c with
                 | Some ps => strip (join_text ps)
                 | None => "No text content found in Gemini response for the answer."
                 end
               else "Answer generation finished atypically. Reason: "
                      ++ enum_format (finish_reason c)
           end
       end).
Proof.
  intros Hc Hconf Hq Hcall.
  unfold generate_answer_for_question. rewrite Hc, Hconf, Hq. cbn [negb].
  unfold answer_try, emit, lift.
  rewrite bind_returned. cbn [fst snd app]. rewrite Hcall, bind_returned.
  destruct (prompt_blocked response); [reflexivity|].
  destruct (candidates response) as [|c cs]; [reflexivity|].
  destruct (enum_value (finish_reason c) =? 1)%Z; cbn [negb]; [|reflexivity].
  destruct (content_parts c); reflexivity.
Qed.

(** C3, as the code has it.  A configured generator asked a non-empty
    question, whose service returns a response, sends that one request and
    shows neither a warning nor an error.  It returns: the blocked
    diagnostic when the prompt was blocked; the no-candidates diagnostic
    when there is no candidate; the "finished atypically" diagnostic
    whenever the first candidate did not stop normally, whatever text it
    carries; and, when it stopped normally, the trimmed joined text of its
    parts, which may be empty, or the "No text content" diagnostic when it
    has no parts. *)
Theorem answer_classification (self : AIQuestionGenerator)
    (model : GenerativeModel) (question_text : string)
    (response : GenerateContentResponse) :
  client self = Some model ->
  is_configured self = true ->
  str_truthy question_text = true ->
  generate_content model (answer_prompt question_text) = Returned response ->
  effects (generate_answer_for_question self question_text)
  = [GenerateContent (answer_prompt question_text)]
  /\ (forall pf,
        prompt_blocked response = Some pf ->
        outcome (generate_answer_for_question self question_text)
        = Returned ("Answer generation blocked by Gemini. Reason: "
                      ++ enum_format (block_reason pf)))
  /\ (prompt_blocked response = None ->
      candidates response = [] ->
      outcome (generate_answer_for_question self question_text)
      = Returned "Gemini returned no candidates for the answer.")
  /\ (forall c,
        prompt_blocked response = None ->
        head (candidates response) = Some c ->
        enum_value (finish_reason c) <> 1%Z ->
        outcome (generate_answer_for_question self question_text)
        = Returned ("Answer generation finished atypically. Reason: "
                      ++ enum_format (finish_reason c)))
  /\ (forall c,
        prompt_blocked response = None ->
        head (candidates response) = Some c ->
        enum_value (finish_reason c) = 1%Z ->
        outcome (generate_answer_for_question self question_text)
        = Returned (match content_parts c with
                    | Some ps => strip (join_text ps)
                    | None => "No text content found in Gemini response for the answer."
                    end)).
Proof.
  intros Hc Hconf Hq Hcall.
  rewrite (answer_run self model question_text response Hc Hconf Hq Hcall).
  cbn [effects outcome fst snd].
  repeat split.
  - intros pf ->. reflexivity.
  - intros -> ->. reflexivity.
  - intros c -> Hhead Hfin.
    destruct (candidates response) as [|c0 cs]; [discriminate|].
    injection Hhead as ->.
    apply Z.eqb_neq in Hfin. rewrite Hfin. reflexivity.
  - intros c -> Hhead Hfin.
    destruct (candidates response) as [|c0 cs]; [discriminate|].
    injection Hhead as ->.
    apply Z.eqb_eq in Hfin. rewrite Hfin. reflexivity.
Qed.

Lemma join_text_empty (ps : list Part) :
  Forall (fun p => text p = None \/ text p = Some "") ps ->
  join_text ps = "".
Proof.
  unfold join_text. induction 1 as [|p ps [Hp|Hp] _ IH];
    [reflexivity| |]; cbn [flat_map]; rewrite Hp; exact IH.
Qed.

(** C10.  Let the first candidate of an unblocked response stop normally.
    If its content has parts and each part has no text or an empty text,
    [generate_answer_for_question] returns the empty string, having sent
    its request and reported nothing.  With parts it always returns the
    trimmed joined text; the "No text content found" diagnostic is what it
    returns when the content or its parts are absent. *)
Theorem empty_parts_give_empty_answer (self : AIQuestionGenerator)
    (question_text : string) (c : Candidate) :
  first_candidate self (answer_prompt question_text) c ->
  str_truthy question_text = true ->
  enum_value (finish_reason c) = 1%Z ->
  (forall ps,
     content_parts c = Some ps ->
     Forall (fun p => text p = None \/ text p = Some "") ps ->
     generate_answer_for_question self question_text
     = ([GenerateContent (answer_prompt question_text)], Returned ""))
  /\ (forall ps,
        content_parts c = Some ps ->
        generate_answer_for_question self question_text
        = ([GenerateContent (answer_prompt question_text)],
           Returned (strip (join_text ps))))
  /\ (content_parts c = None ->
      generate_answer_for_question self question_text
      = ([GenerateContent (answer_prompt question_text)],
         Returned "No text content found in Gemini response for the answer.")).
Proof.
  intros (model & response & Hc & Hconf & Hcall & Hblock & Hhead) Hq Hfin.
  rewrite (answer_run self model question_text response Hc Hconf Hq Hcall).
  rewrite Hblock.
  destruct (candidates response) as [|c0 cs]; [discriminate|].
  injection Hhead as ->.
  apply Z.eqb_eq in Hfin. rewrite Hfin.
  repeat split.
  - intros ps Hps Hall. rewrite Hps, (join_text_empty ps Hall). reflexivity.
  - intros ps Hps. rewrite Hps. reflexivity.
  - intros Hnone. rewrite Hnone. reflexivity.
Qed.

(** ** Requests and the resume text *)

Section RequestFacts.

Variable json_loads : string -> Outcome json.

Lemma generate_questions_requests (self : AIQuestionGenerator) (resume : string)
    (jd : option string) :
  issues_request (effects (generate_questions_from_text json_loads self resume jd))
  <-> not_ready self = false.
Proof.
  unfold generate_questions_from_text, not_ready, issues_request.
  destruct (client self) as [model|]; [|cbn; split; discriminate].
  destruct (is_configured self); cbn [negb]; [|cbn; split; discriminate].
  split; [reflexivity|intros _].
  unfold questions_try, emit, lift. rewrite bind_returned. cbn [fst snd app].
  destruct (generate_content model (build_prompt resume jd)) as [response|e].
  - rewrite bind_returned.
    match goal with
    | |- context [try_except (?a, ?b) _] =>
        destruct b; [rewrite try_except_returned|rewrite try_except_raised]
    end; reflexivity.
  - rewrite bind_raised, try_except_raised. reflexivity.
Qed.

(** C8, as the code has it.  [generate_questions_from_text] does not look
    at the resume text before calling the service: it issues a request
    exactly when the generator is configured.  The guard is in the button
    handler, which calls it, and so lets a request out, only when the
    session holds a resume text that is not empty. *)
Theorem request_needs_resume_in_handler :
  (forall self resume jd,
     issues_request (effects (generate_questions_from_text json_loads self resume jd))
     <-> not_ready self = false)
  /\ (forall ss job_description,
        issues_request (effects (on_generate_click json_loads ss job_description)) ->
        exists c rest, resume_text ss = Some (String c rest)).
Proof.
  split; [exact generate_questions_requests|].
  intros ss jd. unfold on_generate_click, issues_request.
  destruct (ai_question_gen ss) as [gen|]; [|cbn; discriminate].
  destruct (negb (is_configured gen)); [cbn; discriminate|].
  destruct (resume_text ss) as [[|c rest]|]; try (cbn; discriminate).
  intros _. now exists c, rest.
Qed.

End RequestFacts.

(** ** PDF text extraction *)

Section ExtractionFacts.

Variable fitz_open : list Byte.byte -> Outcome Document.

Lemma extract_pages_spec (pages : list Page) (text_so_far : string) :
  (exists texts,
      map get_text pages = map Returned texts
      /\ extract_pages pages text_so_far
         = ([], Returned (text_so_far ++ join "" texts)))
  \/ (exists e,
         In (mkPage (Raised e)) pages
         /\ extract_pages pages text_so_far = ([], Raised e)).
Proof.
  revert text_so_far. induction pages as [|[[t|e]] rest IH]; intros acc.
  - left. exists []. split; [reflexivity|]. cbn. now rewrite append_empty_r.
  - cbn [extract_pages get_text]. unfold lift. rewrite bind_returned.
    destruct (IH (acc ++ t)) as [(texts & Hmap & ->)|(e & Hin & ->)].
    + left. exists (t :: texts). split; [cbn; now rewrite Hmap|].
      rewrite join_nosep_cons, append_assoc. reflexivity.
    + right. exists e. split; [now right|reflexivity].
  - right. exists e. split; [now left|reflexivity].
Qed.

(** C9.  For every input, [extract_text_from_pdf_bytes] returns and never
    raises.  Either the document opened, every page gave its text and the
    document closed, and the result is the texts of the pages joined in
    page order, with nothing reported; or the opening, a page or the
    closing raised, and the result is [None] after one reported error, and
    never a partial text. *)
Theorem extraction_all_or_none (pdf_bytes : list Byte.byte) :
  (exists doc texts,
      fitz_open pdf_bytes = Returned doc
      /\ map get_text (doc_pages doc) = map Returned texts
      /\ doc_close doc = Returned tt
      /\ extract_text_from_pdf_bytes fitz_open pdf_bytes
         = ([], Returned (Some (join "" texts))))
  \/ (exists e,
         (fitz_open pdf_bytes = Raised e
          \/ exists doc,
               fitz_open pdf_bytes = Returned doc
               /\ (In (mkPage (Raised e)) (doc_pages doc)
                   \/ doc_close doc = Raised e))
         /\ extract_text_from_pdf_bytes fitz_open pdf_bytes
            = ([StError ("Error extracting text from PDF: " ++ exc_str e)],
               Returned None)).
Proof.
  unfold extract_text_from_pdf_bytes, lift.
  destruct (fitz_open pdf_bytes) as [doc|e].
  - rewrite bind_returned. cbn [app].
    destruct (extract_pages_spec (doc_pages doc) "")
      as [(texts & Hmap & Hrun)|(e & Hin & Hrun)]; rewrite Hrun.
    + rewrite bind_returned. cbn [app fst snd].
      destruct (doc_close doc) as [[]|e] eqn:Hclose.
      * left. exists doc, texts. repeat split; try assumption.
      * right. exists e. split; [right; exists doc; tauto|reflexivity].
    + right. exists e. split; [right; exists doc; tauto|reflexivity].
  - right. exists e. split; [now left|reflexivity].
Qed.

End ExtractionFacts.

(* ===================================================================== *)
(** * The properties at sample inputs *)
(* ===================================================================== *)

Import Sample.


Lemma first_candidate_sample (reason : PyEnum) (t prompt : string) :
  first_candidate (generator_answering (Returned (response_with reason t)))
                  prompt (candidate_with reason t).
Proof. eexists. eexists. repeat split. Defined.

Lemma four_keys_dict_keys (k : string) :
  dict_lookup four_keys_dict k <> None ->
  In k ["technical"; "behavioral"; "project_specific"; "scenario_based"].
Proof.
  cbn [four_keys_dict dict_lookup].
  destruct (String.eqb "scenario_based" k) eqn:E4;
    [apply String.eqb_eq in E4; subst; simpl; tauto|].
  destruct (String.eqb "project_specific" k) eqn:E3;
    [apply String.eqb_eq in E3; subst; simpl; tauto|].
  destruct (String.eqb "behavioral" k) eqn:E2;
    [apply String.eqb_eq in E2; subst; simpl; tauto|].
  destruct (String.eqb "technical" k) eqn:E1;
    [apply String.eqb_eq in E1; subst; simpl; tauto|].
  congruence.
Defined.

(** C5 at the spec's scenario: upstream returns the four keys, with
    [technical = ["Q1"]]. *)
Lemma well_formed_payload_round_trip_witness :
  exists fx,
    generate_questions_from_text RefJson.loads
      (generator_answering (Returned (response_with STOP four_keys_text)))
      "resume" None
    = (fx, Returned (mkQuestionSet (JArray (map JString ["Q1"]))
                                   (JArray (map JString []))
                                   (JArray (map JString []))
                                   (JArray (map JString []))))
    /\ quiet fx
    /\ forall k,
         dict_lookup
           (items (mkQuestionSet (JArray (map JString ["Q1"]))
                                 (JArray (map JString []))
                                 (JArray (map JString []))
                                 (JArray (map JString [])))) k
         = dict_lookup four_keys_dict k.
Proof.
  apply (well_formed_payload_round_trip RefJson.loads
           (generator_answering (Returned (response_with STOP four_keys_text)))
           "resume" None (candidate_with STOP four_keys_text) four_keys_dict
           ["Q1"] [] [] []).
  - apply first_candidate_sample.
  - reflexivity.
  - vm_compute. reflexivity.
  - exact four_keys_dict_keys.
  - reflexivity.
  - reflexivity.
  - reflexivity.
  - reflexivity.
Defined.

(** C6 at a payload with one expected key and one foreign key. *)
Lemma missing_and_extra_keys_tolerated_witness :
  exists fx qs,
    generate_questions_from_text RefJson.loads
      (generator_answering (Returned (response_with STOP two_keys_text)))
      "resume" None
    = (fx, Returned qs)
    /\ quiet fx
    /\ (forall k v, In (k, v) (items qs) ->
          match dict_lookup [("technical", JArray [JString "Q1"]);
                             ("difficulty", JString "hard")] k with
          | Some v' => v = v'
          | None => v = JArray []
          end)
    /\ (forall d',
          (forall k, In k ["technical"; "behavioral"; "project_specific";
                           "scenario_based"] ->
                     dict_lookup d' k
                     = dict_lookup [("technical", JArray [JString "Q1"]);
                                    ("difficulty", JString "hard")] k) ->
          question_set_of d' = qs).
Proof.
  apply (missing_and_extra_keys_tolerated RefJson.loads
           (generator_answering (Returned (response_with STOP two_keys_text)))
           "resume" None (candidate_with STOP two_keys_text)).
  - apply first_candidate_sample.
  - reflexivity.
  - vm_compute. reflexivity.
Defined.

(** C7, as the code has it, at the spec's scenario: the object on a line
    of its own between the two fences. *)
Lemma fenced_text_parses_as_body_witness :
  clean_generated_text
    (candidate_text (candidate_with STOP ("```json" ++ fenced_body ++ "```")))
  = fenced_body
  /\ generate_questions_from_text RefJson.loads
       (generator_answering
          (Returned (response_with STOP ("```json" ++ fenced_body ++ "```"))))
       "resume" None
     = generate_questions_from_text RefJson.loads
         (generator_answering (Returned (response_with STOP fenced_body)))
         "resume" None.
Proof.
  destruct (fenced_text_parses_as_body RefJson.loads
              (generator_answering
                 (Returned (response_with STOP ("```json" ++ fenced_body ++ "```"))))
              (generator_answering (Returned (response_with STOP fenced_body)))
              "resume" None
              (candidate_with STOP ("```json" ++ fenced_body ++ "```"))
              (candidate_with STOP fenced_body)
              fenced_body) as [Hclean Hsame].
  - apply first_candidate_sample.
  - apply first_candidate_sample.
  - reflexivity.
  - reflexivity.
  - vm_compute. reflexivity.
  - reflexivity.
  - split; [exact Hclean|].
    apply Hsame; vm_compute; reflexivity.
Defined.

(** C7 as stated fails at an empty fenced block.  The response text
    ["```json" ++ nl ++ "```"] hands the line break to [json.loads], which
    refuses it: the result is the malformed-JSON failure.  A response
    whose text is the body alone, the line break, is blank: the result is
    the empty-content failure.  The two dictionaries differ. *)
Lemma empty_fenced_block_differs :
  outcome (generate_questions_from_text RefJson.loads
             (generator_answering
                (Returned (response_with STOP ("```json" ++ nl ++ "```"))))
             "resume" None)
  = Returned (error_structure
                "Malformed JSON from API: Expecting value: line 2 column 1 (char 1)")
  /\ outcome (generate_questions_from_text RefJson.loads
                (generator_answering (Returned (response_with STOP nl)))
                "resume" None)
     = Returned (error_structure "Empty text content from API.")
  /\ outcome (generate_questions_from_text RefJson.loads
                (generator_answering
                   (Returned (response_with STOP ("```json" ++ nl ++ "```"))))
                "resume" None)
     <> outcome (generate_questions_from_text RefJson.loads
                   (generator_answering (Returned (response_with STOP nl)))
                   "resume" None).
Proof.
  split; [vm_compute; reflexivity|].
  split; [vm_compute; reflexivity|].
  vm_compute. discriminate.
Qed.

(** C4 at a blank job description. *)
Lemma prompt_job_description_section_witness :
  exists fx,
    effects (generate_questions_from_text RefJson.loads
               (generator_answering (Returned (response_with STOP four_keys_text)))
               "resume" (Some "  "))
    = GenerateContent
        (prompt_head ++ "resume" ++ prompt_mid
           ++ "No job description provided." ++ prompt_tail)
      :: fx.
Proof.
  apply (prompt_job_description_section RefJson.loads
           (generator_answering (Returned (response_with STOP four_keys_text)))
           (mkModel (fun _ => Returned (response_with STOP four_keys_text)))
           "resume" (Some "  "));
    reflexivity.
Defined.

(** C3, as the code has it, at a candidate cut short by the token limit. *)
Lemma answer_classification_witness :
  effects (generate_answer_for_question
             (generator_answering (Returned (response_with MAX_TOKENS "Partial answer")))
             "What is a hash map?")
  = [GenerateContent (answer_prompt "What is a hash map?")]
  /\ outcome (generate_answer_for_question
                (generator_answering
                   (Returned (response_with MAX_TOKENS "Partial answer")))
                "What is a hash map?")
     = Returned ("Answer generation finished atypically. Reason: "
                   ++ enum_format MAX_TOKENS).
Proof.
  destruct (answer_classification
              (generator_answering (Returned (response_with MAX_TOKENS "Partial answer")))
              (mkModel (fun _ => Returned (response_with MAX_TOKENS "Partial answer")))
              "What is a hash map?"
              (response_with MAX_TOKENS "Partial answer"))
    as (Hfx & _ & _ & Hatypical & _); try reflexivity.
  split; [exact Hfx|].
  apply (Hatypical (candidate_with MAX_TOKENS "Partial answer"));
    [reflexivity|reflexivity|discriminate].
Defined.

(** C3 as stated fails twice.  A candidate cut short by the token limit
    that carries the text ["Partial answer"]: the answer operation shows
    no warning and returns the diagnostic, not the text, while the
    question operation on a candidate cut short warns and goes on.  A
    candidate that stopped normally with blank text: the answer operation
    returns the empty string, not a diagnostic. *)
Lemma answer_ignores_partial_content :
  generate_answer_for_question
    (generator_answering (Returned (response_with MAX_TOKENS "Partial answer")))
    "What is a hash map?"
  = ([GenerateContent (answer_prompt "What is a hash map?")],
     Returned "Answer generation finished atypically. Reason: 2")
  /\ generate_answer_for_question
       (generator_answering (Returned (response_with STOP "   ")))
       "What is a hash map?"
     = ([GenerateContent (answer_prompt "What is a hash map?")], Returned "")
  /\ generate_questions_from_text RefJson.loads
       (generator_answering (Returned (response_with MAX_TOKENS four_keys_text)))
       "resume" None
     = ([GenerateContent (build_prompt "resume" None);
         StWarning ("Gemini API request finished atypically. Reason: MAX_TOKENS."
                      ++ nl ++ "Attempting to use partial content.")],
        Returned (question_set_of four_keys_dict)).
Proof.
  split; [reflexivity|].
  split; [reflexivity|].
  vm_compute. reflexivity.
Qed.

(** C10 at a candidate with one empty part and one part without text. *)
Lemma empty_parts_give_empty_answer_witness :
  generate_answer_for_question
    (generator_answering (Returned (mkResponse None [hollow_candidate])))
    "What is a hash map?"
  = ([GenerateContent (answer_prompt "What is a hash map?")], Returned "").
Proof.
  destruct (empty_parts_give_empty_answer
              (generator_answering (Returned (mkResponse None [hollow_candidate])))
              "What is a hash map?" hollow_candidate) as (Hempty & _ & _).
  - eexists. eexists. repeat split.
  - reflexivity.
  - reflexivity.
  - apply (Hempty [mkPart (Some ""); mkPart None]); [reflexivity|].
    constructor; [right; reflexivity|].
    constructor; [left; reflexivity|constructor].
Defined.

(** C8 as stated fails on the operation itself: called with an empty
    resume text, a configured generator sends its request. *)
Lemma empty_resume_still_requests :
  generate_questions_from_text RefJson.loads
    (generator_answering (Returned (response_with STOP four_keys_text)))
    "" None
  = ([GenerateContent (build_prompt "" None)],
     Returned (question_set_of four_keys_dict))
  /\ issues_request
       (effects (generate_questions_from_text RefJson.loads
                   (generator_answering
                      (Returned (response_with STOP four_keys_text)))
                   "" None)).
Proof.
  split; vm_compute; reflexivity.
Qed.

(** ** Scenarios *)

(** Upstream answers with prose instead of JSON. *)
Example scenario_malformed_json :
  outcome (generate_questions_from_text RefJson.loads
             (generator_answering
                (Returned (response_with STOP "Sure, here are some questions...")))
             "resume" None)
  = Returned (error_structure
                "Malformed JSON from API: Expecting value: line 1 column 1 (char 0)").
Proof. vm_compute. reflexivity. Qed.

(** Upstream reports a blocked prompt. *)
Example scenario_blocked_prompt :
  outcome (generate_questions_from_text RefJson.loads
             (generator_answering (Returned blocked_response)) "resume" None)
  = Returned (error_structure
                "Prompt blocked by safety settings (Reason: BlockReason.SAFETY).").
Proof. vm_compute. reflexivity. Qed.

(** A transport error with both attributes is shaped as a failure. *)
Example scenario_service_unavailable :
  generate_questions_from_text RefJson.loads
    (generator_answering (Raised service_unavailable)) "resume" None
  = ([GenerateContent (build_prompt "resume" None);
      StError "Gemini API Error: The model is overloaded. (Code: 503)"],
     Returned (error_structure "Gemini API Error: The model is overloaded.")).
Proof. vm_compute. reflexivity. Qed.

(** The answer operation turns the same [RetryError] into a string. *)
Example scenario_answer_retry_error :
  outcome (generate_answer_for_question
             (generator_answering (Raised retry_error)) "What is a hash map?")
  = Returned "Error generating answer: Timeout of 60.0s exceeded, last exception: 503 The model is overloaded.".
Proof. reflexivity. Qed.

(** The answer operation before any configuration: no request. *)
Example scenario_unconfigured_answer :
  generate_answer_for_question unconfigured "What is a hash map?"
  = ([], Returned "Gemini client not configured. Cannot generate answer.").
Proof. reflexivity. Qed.

(** The button with an empty resume text: a warning and no request. *)
Example scenario_button_without_resume :
  effects (on_generate_click RefJson.loads
             (session_with
                (generator_answering (Returned (response_with STOP four_keys_text)))
                (Some ""))
             "Backend intern")
  = [StWarning "Please upload a resume first."].
Proof. reflexivity. Qed.

(** The button with a resume: one request, the questions stored, and the
    success message. *)
Example scenario_button_with_resume :
  on_generate_click RefJson.loads
    (session_with
       (generator_answering (Returned (response_with STOP four_keys_text)))
       (Some "Jane Doe"))
    "Backend intern"
  = ([GenerateContent (build_prompt "Jane Doe" (Some "Backend intern"));
      StSuccess "Questions generated!"],
     Returned (mkSession
                 (Some (generator_answering
                          (Returned (response_with STOP four_keys_text))))
                 (Some "Jane Doe")
                 (Some (question_set_of four_keys_dict)) None None)).
Proof. vm_compute. reflexivity. Qed.

(** Extraction: two pages, a damaged second page, bytes that do not open. *)
Example scenario_extraction :
  extract_text_from_pdf_bytes fitz_open_sample [Byte.x25; Byte.x50]
  = ([], Returned (Some "Jane Doe Python, SQL"))
  /\ extract_text_from_pdf_bytes fitz_open_sample [Byte.x25]
     = ([StError "Error extracting text from PDF: page is damaged"], Returned None)
  /\ extract_text_from_pdf_bytes fitz_open_sample []
     = ([StError "Error extracting text from PDF: cannot open empty stream"],
        Returned None).
Proof. repeat split. Qed.

(* ===================================================================== *)
(** * Further properties of the generator *)
(* ===================================================================== *)

(** ** Requests *)

Lemma request_count_app (fx fx' : list Effect) :
  request_count (fx ++ fx')%list = request_count fx + request_count fx'.
Proof. unfold request_count. now rewrite filter_app, length_app. Qed.

Lemma error_structure_no_request (ui : string) (d : option string) :
  request_count (fst (_return_error_structure ui d)) = 0.
Proof. destruct (return_error_structure_eq ui d) as [m ->]. reflexivity. Qed.

Section RequestCounting.

Variable json_loads : string -> Outcome json.

Lemma decode_candidate_no_request (c : Candidate) :
  request_count (fst (decode_candidate json_loads c)) = 0.
Proof.
  unfold decode_candidate.
  destruct (negb (str_truthy (strip (candidate_text c))));
    [apply error_structure_no_request|].
  destruct (json_loads (clean_generated_text (candidate_text c))) as [v|e];
    [destruct v|]; reflexivity.
Qed.

Lemma check_finish_reason_no_request (c : Candidate) :
  request_count (fst (check_finish_reason json_loads c)) = 0.
Proof.
  unfold check_finish_reason.
  destruct (negb (enum_value (finish_reason c) =? 1)%Z);
    [|apply decode_candidate_no_request].
  destruct (safety_ratings c);
    (destruct (match content_parts c with Some ps => any_text ps | None => false end);
     [ unfold emit; rewrite bind_returned; cbn [fst];
       rewrite request_count_app, decode_candidate_no_request; reflexivity
     | apply error_structure_no_request ]).
Qed.

Lemma questions_except_no_request (e : PyExc) :
  request_count (fst (questions_except e)) = 0.
Proof.
  unfold questions_except.
  destruct (exc_class e); try apply error_structure_no_request.
  destruct (exc_message e); [destruct (exc_code e)|];
    try reflexivity; apply error_structure_no_request.
Qed.

Lemma questions_try_effects (model : GenerativeModel) (prompt : string) :
  exists fx,
    fst (questions_try json_loads model prompt) = GenerateContent prompt :: fx
    /\ request_count fx = 0.
Proof.
  unfold questions_try, emit, lift. rewrite bind_returned. cbn [fst snd app].
  destruct (generate_content model prompt) as [response|e].
  - rewrite bind_returned. cbn [fst app]. eexists. split; [reflexivity|].
    destruct (prompt_blocked response); [apply error_structure_no_request|].
    destruct (candidates response);
      [apply error_structure_no_request|apply check_finish_reason_no_request].
  - exists []. split; reflexivity.
Qed.

Lemma generate_questions_effects (self : AIQuestionGenerator) (resume : string)
    (jd : option string) :
  not_ready self = false ->
  exists fx,
    effects (generate_questions_from_text json_loads self resume jd)
    = GenerateContent (build_prompt resume jd) :: fx
    /\ request_count fx = 0.
Proof.
  unfold not_ready, generate_questions_from_text.
  destruct (client self) as [model|]; [|discriminate].
  intros ->.
  destruct (questions_try_effects model (build_prompt resume jd))
    as (fx & Hfx & Hcount).
  destruct (questions_try json_loads model (build_prompt resume jd)) as [fx0 [qs|e]];
    cbn [fst] in Hfx; subst fx0.
  - rewrite try_except_returned. exists fx. split; [reflexivity|exact Hcount].
  - rewrite try_except_raised. eexists. split; [reflexivity|].
    rewrite request_count_app, Hcount, questions_except_no_request. reflexivity.
Qed.

(** X1.  [generate_questions_from_text] sends no request when the
    generator is not ready and exactly one otherwise: there is no retry
    on any path, failure or not.  The one request is sent first, and it
    carries the prompt built from the two arguments, which embeds the
    resume text as it was given. *)
Theorem questions_send_one_request (self : AIQuestionGenerator) (resume : string)
    (jd : option string) :
  request_count (effects (generate_questions_from_text json_loads self resume jd))
  = (if not_ready self then 0 else 1)
  /\ (forall prompt,
        In (GenerateContent prompt)
           (effects (generate_questions_from_text json_loads self resume jd)) ->
        head (effects (generate_questions_from_text json_loads self resume jd))
        = Some (GenerateContent (build_prompt resume jd))
        /\ prompt = build_prompt resume jd
        /\ contains prompt resume).
Proof.
  destruct (not_ready self) eqn:Hready.
  - assert (Hrun : effects (generate_questions_from_text json_loads self resume jd)
                   = [StError "Gemini client not configured. Please check API key."]).
    { unfold not_ready in Hready. unfold generate_questions_from_text.
      destruct (client self); [rewrite Hready|]; reflexivity. }
    rewrite Hrun. split; [reflexivity|].
    intros prompt [H|[]]. discriminate H.
  - destruct (generate_questions_effects self resume jd Hready) as (fx & -> & Hcount).
    split; [cbn; unfold request_count in Hcount; now rewrite Hcount|].
    intros prompt [H|Hin].
    + injection H as <-. repeat split.
      exists prompt_head, (prompt_mid ++ job_description_section jd ++ prompt_tail).
      reflexivity.
    + exfalso. unfold request_count in Hcount.
      assert (Hf : In (GenerateContent prompt) (filter is_request fx))
        by (apply filter_In; split; [exact Hin|reflexivity]).
      destruct (filter is_request fx); [exact Hf|discriminate].
Qed.

End RequestCounting.

Lemma answer_prompt_contains (question_text : string) :
  contains (answer_prompt question_text) (dq ++ question_text ++ dq).
Proof.
  exists (nl ++ "        You are an expert interviewer, career coach, and industry professional."
             ++ nl ++ "        A candidate has been asked the following interview question:"
             ++ nl ++ "        ---"
             ++ nl ++ "        Question: "),
         (nl ++ "        ---"
             ++ nl ++ "        Provide a model answer. (Instructions from previous prompt are still relevant)"
             ++ nl ++ "        ").
  unfold answer_prompt. cbn. now rewrite !append_assoc.
Qed.

Lemma answer_run_raised (self : AIQuestionGenerator) (model : GenerativeModel)
    (question_text : string) (e : PyExc) :
  client self = Some model ->
  is_configured self = true ->
  str_truthy question_text = true ->
  generate_content model (answer_prompt question_text) = Raised e ->
  generate_answer_for_question self question_text
  = ([GenerateContent (answer_prompt question_text);
      StError ("Error generating answer with Gemini: " ++ exc_str e)],
     Returned ("Error generating answer: " ++ exc_str e)).
Proof.
  intros Hc Hconf Hq Hcall.
  unfold generate_answer_for_question. rewrite Hc, Hconf, Hq. cbn [negb].
  unfold answer_try, emit, lift.
  rewrite bind_returned. cbn [fst snd app]. rewrite Hcall. reflexivity.
Qed.

(** X2.  [generate_answer_for_question] sends no request when the
    generator is not ready or the question is empty, and exactly one
    otherwise.  The request carries the question between double quotes,
    as it was given. *)
Theorem answer_sends_one_request (self : AIQuestionGenerator)
    (question_text : string) :
  request_count (effects (generate_answer_for_question self question_text))
  = (if not_ready self || negb (str_truthy question_text) then 0 else 1)
  /\ (forall prompt,
        In (GenerateContent prompt)
           (effects (generate_answer_for_question self question_text)) ->
        prompt = answer_prompt question_text
        /\ contains prompt (dq ++ question_text ++ dq)).
Proof.
  unfold not_ready.
  destruct (client self) as [model|] eqn:Hc;
    [|unfold generate_answer_for_question; rewrite Hc; split;
      [reflexivity|intros p []]].
  destruct (is_configured self) eqn:Hconf; cbn [negb orb];
    [|unfold generate_answer_for_question; rewrite Hc, Hconf; split;
      [reflexivity|intros p []]].
  destruct (str_truthy question_text) eqn:Hq; cbn [negb];
    [|unfold generate_answer_for_question; rewrite Hc, Hconf, Hq; split;
      [reflexivity|intros p []]].
  destruct (generate_content model (answer_prompt question_text))
    as [response|e] eqn:Hcall.
  - rewrite (answer_run self model question_text response Hc Hconf Hq Hcall).
    split; [reflexivity|].
    intros p [H|[]]. injection H as <-.
    split; [reflexivity|apply answer_prompt_contains].
  - rewrite (answer_run_raised self model question_text e Hc Hconf Hq Hcall).
    split; [reflexivity|].
    intros p [H|[H|[]]]; [|discriminate H]. injection H as <-.
    split; [reflexivity|apply answer_prompt_contains].
Qed.

(** X3.  [generate_answer_for_question] never lets an exception out: it
    always returns a string.  When the service call raises, whatever the
    exception, the string is ["Error generating answer: "] followed by the
    text of the exception, and the same text is shown with [st.error]. *)
Theorem answer_never_raises (self : AIQuestionGenerator) (question_text : string) :
  (exists fx answer,
      generate_answer_for_question self question_text = (fx, Returned answer))
  /\ (forall model e,
        client self = Some model ->
        is_configured self = true ->
        str_truthy question_text = true ->
        generate_content model (answer_prompt question_text) = Raised e ->
        generate_answer_for_question self question_text
        = ([GenerateContent (answer_prompt question_text);
            StError ("Error generating answer with Gemini: " ++ exc_str e)],
           Returned ("Error generating answer: " ++ exc_str e))).
Proof.
  split; [apply generate_answer_returns|].
  intros model e. apply answer_run_raised.
Qed.

(** ** Exceptions and failure paths *)

Lemma error_structure_returns (ui : string) (d : option string)
    (fx : list Effect) (e : PyExc) :
  _return_error_structure ui d <> (fx, Raised e).
Proof. destruct (return_error_structure_eq ui d) as [m ->]. discriminate. Qed.

Section EscapeFacts.

Variable json_loads : string -> Outcome json.

Lemma decode_candidate_raised (c : Candidate) (fx : list Effect) (e : PyExc) :
  decode_candidate json_loads c = (fx, Raised e) ->
  (exists t, json_loads t = Raised e) \/ exc_class e = IsOtherException.
Proof.
  unfold decode_candidate.
  destruct (negb (str_truthy (strip (candidate_text c)))).
  - intros H. now apply error_structure_returns in H.
  - destruct (json_loads (clean_generated_text (candidate_text c))) as [v|e0] eqn:Hj.
    + unfold lift. rewrite bind_returned.
      destruct v; cbn; intros H; try discriminate H;
        injection H as _ <-; now right.
    + cbn. intros H. injection H as _ <-. left. eauto.
Qed.

Lemma check_finish_reason_raised (c : Candidate) (fx : list Effect) (e : PyExc) :
  check_finish_reason json_loads c = (fx, Raised e) ->
  (exists t, json_loads t = Raised e) \/ exc_class e = IsOtherException.
Proof.
  unfold check_finish_reason.
  destruct (negb (enum_value (finish_reason c) =? 1)%Z);
    [|apply decode_candidate_raised].
  destruct (safety_ratings c);
    (destruct (match content_parts c with Some ps => any_text ps | None => false end);
     [ unfold emit; rewrite bind_returned;
       destruct (decode_candidate json_loads c) as [fx0 o] eqn:Hd;
       cbn [fst snd]; intros H; injection H as _ ->;
       exact (decode_candidate_raised c fx0 e Hd)
     | intros H; now apply error_structure_returns in H ]).
Qed.

Lemma questions_try_raised (model : GenerativeModel) (prompt : string)
    (fx : list Effect) (e : PyExc) :
  questions_try json_loads model prompt = (fx, Raised e) ->
  generate_content model prompt = Raised e
  \/ (exists t, json_loads t = Raised e)
  \/ exc_class e = IsOtherException.
Proof.
  unfold questions_try, emit, lift. rewrite bind_returned. cbn [fst snd app].
  destruct (generate_content model prompt) as [response|e0].
  - rewrite bind_returned. intros H. right.
    destruct (prompt_blocked response) as [pf|].
    + destruct (return_error_structure_eq
                  ("Gemini API blocked the prompt. Reason: "
                     ++ enum_str (block_reason pf) ++ "." ++ nl
                     ++ "Safety Ratings:" ++ nl
                     ++ format_ratings (feedback_safety_ratings pf))
                  (Some ("Prompt blocked by safety settings (Reason: "
                           ++ enum_str (block_reason pf) ++ ")."))) as [m Hm].
      rewrite Hm in H. discriminate H.
    + destruct (candidates response) as [|c cs].
      * destruct (return_error_structure_eq
                    "Gemini API returned no candidates in the response."
                    (Some "No candidates in API response.")) as [m Hm].
        rewrite Hm in H. discriminate H.
      * destruct (check_finish_reason json_loads c) as [fx0 o] eqn:Hc.
        cbn [fst snd] in H. injection H as _ ->.
        exact (check_finish_reason_raised c fx0 e Hc).
  - rewrite bind_raised. intros H. injection H as _ <-. now left.
Qed.

(** X4.  The one way an exception leaves [generate_questions_from_text]:
    the service call, or [json.loads], raised a [GoogleAPIError] that
    lacks the attribute [message] or the attribute [code]; what leaves is
    the [AttributeError] of reading that attribute in the handler of line
    193, and no error has been shown with [st.error].  Every other
    exception is turned into a returned dictionary. *)
Theorem only_handler_fault_escapes (self : AIQuestionGenerator) (resume : string)
    (jd : option string) (fx : list Effect) (e : PyExc) :
  generate_questions_from_text json_loads self resume jd = (fx, Raised e) ->
  exists model e0 attr,
    client self = Some model
    /\ (generate_content model (build_prompt resume jd) = Raised e0
        \/ exists t, json_loads t = Raised e0)
    /\ exc_class e0 = IsGoogleAPIError
    /\ ((attr = "message" /\ exc_message e0 = None)
        \/ (attr = "code" /\ exc_code e0 = None))
    /\ e = attribute_error (exc_type_name e0) attr
    /\ quiet fx.
Proof.
  intros Hrun.
  assert (Hq : quiet fx).
  { pose proof (generate_questions_ending json_loads self resume jd) as Hend.
    rewrite Hrun in Hend. inversion Hend; subst. assumption. }
  revert Hrun. unfold generate_questions_from_text.
  destruct (client self) as [model|];
    [|intros H; now apply error_structure_returns in H].
  destruct (negb (is_configured self));
    [intros H; now apply error_structure_returns in H|].
  destruct (questions_try json_loads model (build_prompt resume jd))
    as [fx0 [qs|e0]] eqn:Htry.
  - rewrite try_except_returned. discriminate.
  - rewrite try_except_raised. intros H.
    destruct (questions_except e0) as [fx1 o] eqn:Hh.
    cbn [fst snd] in H. injection H as _ ->.
    destruct (questions_except_raises e0 e fx1 Hh) as [Hcl Hattr].
    assert (Hsrc : generate_content model (build_prompt resume jd) = Raised e0
                   \/ exists t, json_loads t = Raised e0).
    { destruct (questions_try_raised _ _ _ _ Htry) as [H|[H|H]];
        [now left|now right|congruence]. }
    destruct Hattr as [[Hm ->]|[Hc ->]].
    + exists model, e0, "message". repeat split; auto.
    + exists model, e0, "code". repeat split; auto.
Qed.

(** X5.  A blocked prompt wins over everything else in the response: when
    the response reports a block reason, the result is the blocked-prompt
    failure, with the reason's [str()] in the diagnostic and the safety
    ratings of the feedback in the message shown, whatever candidates the
    response also carries. *)
Theorem blocked_prompt_wins (self : AIQuestionGenerator) (resume : string)
    (jd : option string) (model : GenerativeModel) (pf : PromptFeedback)
    (cands : list Candidate) :
  client self = Some model ->
  is_configured self = true ->
  generate_content model (build_prompt resume jd)
  = Returned (mkResponse (Some pf) cands) ->
  enum_value (block_reason pf) <> 0%Z ->
  generate_questions_from_text json_loads self resume jd
  = ([GenerateContent (build_prompt resume jd);
      StError ("Gemini API blocked the prompt. Reason: "
                 ++ enum_str (block_reason pf) ++ "." ++ nl
                 ++ "Safety Ratings:" ++ nl
                 ++ format_ratings (feedback_safety_ratings pf))],
     Returned (error_structure
                 ("Prompt blocked by safety settings (Reason: "
                    ++ enum_str (block_reason pf) ++ ")."))).
Proof.
  intros Hc Hconf Hcall Hblock.
  apply (blocked_prompt_failure json_loads self resume jd model
           (mkResponse (Some pf) cands) pf Hc Hconf Hcall).
  unfold prompt_blocked, enum_truthy. cbn [prompt_feedback].
  apply Z.eqb_neq in Hblock. now rewrite Hblock.
Qed.

(** The message of lines 146-151 for a candidate that did not stop
    normally. *)
Lemma check_finish_reason_partial (c : Candidate) :
  enum_value (finish_reason c) <> 1%Z ->
  str_truthy (candidate_text c) = true ->
  check_finish_reason json_loads c
  = ((StWarning
        ("Gemini API request finished atypically. Reason: "
           ++ reason_str (finish_reason c) ++ "."
           ++ match safety_ratings c with
              | [] => ""
              | rs => nl ++ "Safety Ratings:" ++ nl ++ format_ratings rs
              end
           ++ nl ++ "Attempting to use partial content.")
        :: fst (decode_candidate json_loads c))%list,
     snd (decode_candidate json_loads c)).
Proof.
  intros Hfin Htext. unfold check_finish_reason.
  apply Z.eqb_neq in Hfin. rewrite Hfin. cbn [negb].
  rewrite usable_content_iff_text, Htext.
  destruct (safety_ratings c); unfold emit; rewrite bind_returned;
    cbn [app]; rewrite ?append_assoc; reflexivity.
Qed.

(** X6.  Partial content is used.  When the first candidate did not stop
    normally but carries text that is not blank and decodes to a JSON
    object, the operation shows one warning, which names the finish reason
    and lists the candidate's safety ratings, shows no error, and returns
    the dictionary decoded from the text. *)
Theorem partial_content_is_decoded (self : AIQuestionGenerator) (resume : string)
    (jd : option string) (c : Candidate) (d : list (string * json)) :
  first_candidate self (build_prompt resume jd) c ->
  enum_value (finish_reason c) <> 1%Z ->
  str_truthy (strip (candidate_text c)) = true ->
  json_loads (clean_generated_text (candidate_text c)) = Returned (JObject d) ->
  generate_questions_from_text json_loads self resume jd
  = ([GenerateContent (build_prompt resume jd);
      StWarning
        ("Gemini API request finished atypically. Reason: "
           ++ reason_str (finish_reason c) ++ "."
           ++ match safety_ratings c with
              | [] => ""
              | rs => nl ++ "Safety Ratings:" ++ nl ++ format_ratings rs
              end
           ++ nl ++ "Attempting to use partial content.")],
     Returned (question_set_of d)).
Proof.
  intros Hfirst Hfin Ht Hj.
  rewrite (run_first_candidate json_loads _ _ _ _ Hfirst).
  rewrite (check_finish_reason_partial c Hfin (strip_truthy _ Ht)).
  unfold decode_candidate. rewrite Ht, Hj. reflexivity.
Qed.

(** X7.  A candidate that did not stop normally and whose text is not
    empty but blank passes the test for usable content: the operation
    first warns that it uses partial content, then fails on the blank
    text.  The diagnostic returned is the empty-content one, not the one
    that names the finish reason. *)
Theorem blank_partial_content_fails (self : AIQuestionGenerator) (resume : string)
    (jd : option string) (c : Candidate) :
  first_candidate self (build_prompt resume jd) c ->
  enum_value (finish_reason c) <> 1%Z ->
  candidate_text c <> "" ->
  strip (candidate_text c) = "" ->
  generate_questions_from_text json_loads self resume jd
  = ([GenerateContent (build_prompt resume jd);
      StWarning
        ("Gemini API request finished atypically. Reason: "
           ++ reason_str (finish_reason c) ++ "."
           ++ match safety_ratings c with
              | [] => ""
              | rs => nl ++ "Safety Ratings:" ++ nl ++ format_ratings rs
              end
           ++ nl ++ "Attempting to use partial content.");
      StError "Gemini API returned empty text content, possibly due to safety filters or an issue with the prompt response."],
     Returned (error_structure "Empty text content from API.")).
Proof.
  intros Hfirst Hfin Hne Hblank.
  assert (Ht : str_truthy (candidate_text c) = true)
    by (destruct (candidate_text c); [congruence|reflexivity]).
  rewrite (run_first_candidate json_loads _ _ _ _ Hfirst).
  rewrite (check_finish_reason_partial c Hfin Ht).
  unfold decode_candidate. rewrite Hblank. reflexivity.
Qed.

(** X8.  Text that is valid JSON but not an object (a list, a string, a
    number, [true], [null]) is a failure: [questions.get] does not exist,
    the last handler catches the [AttributeError], and the diagnostic
    names the type that was decoded. *)
Theorem non_object_json_fails (self : AIQuestionGenerator) (resume : string)
    (jd : option string) (c : Candidate) (v : json) :
  first_candidate self (build_prompt resume jd) c ->
  str_truthy (strip (candidate_text c)) = true ->
  json_loads (clean_generated_text (candidate_text c)) = Returned v ->
  (forall d, v <> JObject d) ->
  outcome (generate_questions_from_text json_loads self resume jd)
  = Returned (error_structure
                ("Unexpected error: '" ++ type_name v
                   ++ "' object has no attribute 'get'"))
  /\ reports_error
       (effects (generate_questions_from_text json_loads self resume jd)).
Proof. apply not_an_object_failure. Qed.

(** X9.  Text that [json.loads] refuses is a failure whose diagnostic is
    ["Malformed JSON from API: "] followed by the decoder's own message. *)
Theorem malformed_json_fails (self : AIQuestionGenerator) (resume : string)
    (jd : option string) (c : Candidate) (e : PyExc) :
  first_candidate self (build_prompt resume jd) c ->
  str_truthy (strip (candidate_text c)) = true ->
  json_loads (clean_generated_text (candidate_text c)) = Raised e ->
  exc_class e = IsJSONDecodeError ->
  outcome (generate_questions_from_text json_loads self resume jd)
  = Returned (error_structure ("Malformed JSON from API: " ++ exc_str e))
  /\ reports_error
       (effects (generate_questions_from_text json_loads self resume jd)).
Proof. apply malformed_json_failure. Qed.

(** X10.  A Google API error that has both attributes [message] and
    [code] is returned as a failure: the message shown carries both, the
    diagnostic in the dictionary the message only. *)
Theorem api_call_error_fails (self : AIQuestionGenerator) (resume : string)
    (jd : option string) (model : GenerativeModel) (e : PyExc)
    (message code : string) :
  client self = Some model ->
  is_configured self = true ->
  generate_content model (build_prompt resume jd) = Raised e ->
  exc_class e = IsGoogleAPIError ->
  exc_message e = Some message ->
  exc_code e = Some code ->
  generate_questions_from_text json_loads self resume jd
  = ([GenerateContent (build_prompt resume jd);
      StError ("Gemini API Error: " ++ message ++ " (Code: " ++ code ++ ")")],
     Returned (error_structure ("Gemini API Error: " ++ message))).
Proof. apply transport_error_failure. Qed.

Lemma reason_str_unknown (reason : PyEnum) :
  (enum_value reason < 0 \/ 5 < enum_value reason)%Z ->
  reason_str reason = "UNKNOWN (" ++ enum_format reason ++ ")".
Proof.
  intros Hout. unfold reason_str, reason_map. cbn [find fst snd].
  repeat match goal with
         | |- context [(?k =? enum_value reason)%Z] =>
             destruct (Z.eqb_spec k (enum_value reason)); [lia|]
         end.
  reflexivity.
Qed.

(** X11.  A finish reason outside the six known codes, on a candidate
    with no text, is a failure whose diagnostic labels the reason
    ["UNKNOWN (...)"] around the code as an f-string formats it, and adds
    [" Check safety ratings."] exactly when the candidate has ratings. *)
Theorem unknown_finish_reason_fails (self : AIQuestionGenerator) (resume : string)
    (jd : option string) (c : Candidate) :
  first_candidate self (build_prompt resume jd) c ->
  (enum_value (finish_reason c) < 0 \/ 5 < enum_value (finish_reason c))%Z ->
  candidate_text c = "" ->
  exists ui,
    generate_questions_from_text json_loads self resume jd
    = ([GenerateContent (build_prompt resume jd); StError ui],
       Returned (error_structure
                   ("API request finished: UNKNOWN ("
                      ++ enum_format (finish_reason c) ++ ")."
                      ++ match safety_ratings c with
                         | [] => ""
                         | _ => " Check safety ratings."
                         end))).
Proof.
  intros Hfirst Hout Htext.
  assert (Hfin : enum_value (finish_reason c) <> 1%Z) by lia.
  destruct (atypical_termination_failure json_loads self resume jd c
              Hfirst Hfin Htext) as [ui Hrun].
  exists ui. rewrite Hrun, (reason_str_unknown _ Hout).
  now rewrite !append_assoc.
Qed.

End EscapeFacts.

(** ** The button handler *)

Section HandlerFacts.

Variable json_loads : string -> Outcome json.

Lemma failure_run_error_structure (self : AIQuestionGenerator) (resume : string)
    (jd : option string) (fx : list Effect) (qs : QuestionSet) :
  generate_questions_from_text json_loads self resume jd = (fx, Returned qs) ->
  reports_error fx ->
  exists m, qs = error_structure m.
Proof.
  intros Hrun Hrep.
  pose proof (generate_questions_ending json_loads self resume jd) as Hend.
  rewrite Hrun in Hend.
  inversion Hend as [pre ui m Hq Hfx|pre d Hq Hfx|]; subst.
  - now exists m.
  - unfold reports_error, quiet in *. congruence.
Qed.

Lemma on_generate_click_run (ss : SessionState) (gen : AIQuestionGenerator)
    (c : ascii) (r : string) (job_description : string)
    (fx : list Effect) (qs : QuestionSet) :
  ai_question_gen ss = Some gen ->
  is_configured gen = true ->
  resume_text ss = Some (String c r) ->
  generate_questions_from_text json_loads gen (String c r) (Some job_description)
  = (fx, Returned qs) ->
  on_generate_click json_loads ss job_description
  = ((fx ++ fst (is_error <- is_error_in_response qs ;;
                 (if negb is_error && has_any_actual_questions qs
                  then emit (StSuccess "Questions generated!")
                  else ret tt) ;;;
                 ret (mkSession (ai_question_gen ss) (resume_text ss)
                                (Some qs) None None)))%list,
     snd (is_error <- is_error_in_response qs ;;
          (if negb is_error && has_any_actual_questions qs
           then emit (StSuccess "Questions generated!")
           else ret tt) ;;;
          ret (mkSession (ai_question_gen ss) (resume_text ss)
                         (Some qs) None None))).
Proof.
  intros Hgen Hconf Hres Hrun. unfold on_generate_click.
  rewrite Hgen, Hconf, Hres. cbn [negb]. rewrite Hrun.
  now rewrite bind_returned.
Qed.

(** X12.  After a failure the handler shows no success message.  When the
    operation returns along a failure path, the handler shows what the
    operation showed and nothing more, stores the failure dictionary as
    the generated questions, and forgets the question and the answer that
    were open. *)
Theorem failure_shows_no_success (ss : SessionState) (gen : AIQuestionGenerator)
    (c : ascii) (r : string) (job_description : string)
    (fx : list Effect) (qs : QuestionSet) :
  ai_question_gen ss = Some gen ->
  is_configured gen = true ->
  resume_text ss = Some (String c r) ->
  generate_questions_from_text json_loads gen (String c r) (Some job_description)
  = (fx, Returned qs) ->
  reports_error fx ->
  on_generate_click json_loads ss job_description
  = (fx, Returned (mkSession (ai_question_gen ss) (resume_text ss)
                             (Some qs) None None)).
Proof.
  intros Hgen Hconf Hres Hrun Hrep.
  rewrite (on_generate_click_run ss gen c r job_description fx qs
             Hgen Hconf Hres Hrun).
  destruct (failure_run_error_structure _ _ _ _ _ Hrun Hrep) as [m ->].
  cbn. now rewrite app_nil_r.
Qed.

(** X13.  The handler itself can fail.  When the dictionary returned has
    a [technical] list whose first item is not a string, the test of line
    332 calls [startswith] on it and the [AttributeError] leaves the
    handler, which has no [try]. *)
Theorem non_string_question_breaks_handler (ss : SessionState)
    (gen : AIQuestionGenerator) (c : ascii) (r : string)
    (job_description : string) (fx : list Effect) (qs : QuestionSet)
    (first : json) (others : list json) :
  ai_question_gen ss = Some gen ->
  is_configured gen = true ->
  resume_text ss = Some (String c r) ->
  generate_questions_from_text json_loads gen (String c r) (Some job_description)
  = (fx, Returned qs) ->
  technical qs = JArray (first :: others) ->
  (forall s, first <> JString s) ->
  on_generate_click json_loads ss job_description
  = (fx, Raised (attribute_error (type_name first) "startswith")).
Proof.
  intros Hgen Hconf Hres Hrun Htech Hno.
  rewrite (on_generate_click_run ss gen c r job_description fx qs
             Hgen Hconf Hres Hrun).
  unfold is_error_in_response. rewrite Htech.
  destruct first; try (cbn; now rewrite app_nil_r).
  now destruct (Hno s).
Qed.

(** X14.  The success message.  When the dictionary returned has a
    [technical] list whose first item is a string that does not start
    with ["Error:"], the handler adds the success message to what the
    operation showed and stores the dictionary. *)
Theorem real_questions_show_success (ss : SessionState)
    (gen : AIQuestionGenerator) (c : ascii) (r : string)
    (job_description : string) (fx : list Effect) (qs : QuestionSet)
    (q : string) (others : list json) :
  ai_question_gen ss = Some gen ->
  is_configured gen = true ->
  resume_text ss = Some (String c r) ->
  generate_questions_from_text json_loads gen (String c r) (Some job_description)
  = (fx, Returned qs) ->
  technical qs = JArray (JString q :: others) ->
  startswith q "Error:" = false ->
  on_generate_click json_loads ss job_description
  = ((fx ++ [StSuccess "Questions generated!"])%list,
     Returned (mkSession (ai_question_gen ss) (resume_text ss)
                         (Some qs) None None)).
Proof.
  intros Hgen Hconf Hres Hrun Htech Hq.
  rewrite (on_generate_click_run ss gen c r job_description fx qs
             Hgen Hconf Hres Hrun).
  unfold is_error_in_response. rewrite Htech.
  unfold ret at 1. rewrite !bind_returned, Hq. cbn [negb andb].
  unfold has_any_actual_questions, items. cbn [existsb snd]. rewrite Htech, Hq.
  cbn. reflexivity.
Qed.

(** X15.  A dictionary whose four lists are all empty, as decoded from
    the object [{}], is neither a success nor a failure for the handler:
    it shows nothing of its own and stores the empty dictionary. *)
Theorem empty_result_is_silent (ss : SessionState)
    (gen : AIQuestionGenerator) (c : ascii) (r : string)
    (job_description : string) (fx : list Effect) :
  ai_question_gen ss = Some gen ->
  is_configured gen = true ->
  resume_text ss = Some (String c r) ->
  generate_questions_from_text json_loads gen (String c r) (Some job_description)
  = (fx, Returned (question_set_of [])) ->
  on_generate_click json_loads ss job_description
  = (fx, Returned (mkSession (ai_question_gen ss) (resume_text ss)
                             (Some (question_set_of [])) None None)).
Proof.
  intros Hgen Hconf Hres Hrun.
  rewrite (on_generate_click_run ss gen c r job_description fx _
             Hgen Hconf Hres Hrun).
  cbn. now rewrite app_nil_r.
Qed.

End HandlerFacts.

(** ** Cleaning the generated text *)

Lemma lstrip_is_suffix (s : string) : exists pre, s = pre ++ lstrip s.
Proof.
  induction s as [|c s [pre IH]]; [now exists ""|].
  cbn [lstrip]. destruct (isspace c).
  - exists (String c pre). cbn. now rewrite <- IH.
  - now exists "".
Qed.

Lemma rstrip_is_prefix (s : string) : exists post, s = rstrip s ++ post.
Proof.
  induction s as [|c s [post IH]]; [now exists ""|].
  cbn [rstrip]. destruct (rstrip s) as [|c' r'] eqn:Hr.
  - destruct (isspace c).
    + exists (String c s). reflexivity.
    + exists post. cbn. cbn in IH. now rewrite <- IH.
  - exists post. cbn. cbn in IH. now rewrite <- IH.
Qed.

Lemma slice_from_is_suffix (n : nat) (s : string) :
  exists pre, s = pre ++ slice_from n s.
Proof.
  revert s. induction n as [|n IH]; intros s; [now exists ""|].
  destruct s as [|c s]; [now exists ""|].
  destruct (IH s) as [pre Hpre]. exists (String c pre).
  cbn. now rewrite <- Hpre.
Qed.

Lemma slice_to_is_prefix (n : nat) (s : string) :
  exists post, s = slice_to n s ++ post.
Proof.
  revert s. induction n as [|n IH]; intros s; [now exists s|].
  destruct s as [|c s]; [now exists ""|].
  destruct (IH s) as [post Hpost]. exists post.
  cbn. now rewrite <- Hpost.
Qed.

Lemma contains_refl (s : string) : contains s s.
Proof. exists "", "". cbn. now rewrite append_empty_r. Qed.

Lemma contains_trans (a b c : string) : contains a b -> contains b c -> contains a c.
Proof.
  intros (p1 & q1 & ->) (p2 & q2 & ->).
  exists (p1 ++ p2), (q2 ++ q1). now rewrite !append_assoc.
Qed.

Lemma contains_suffix (pre s : string) : contains (pre ++ s) s.
Proof. exists pre, "". now rewrite append_empty_r. Qed.

Lemma contains_prefix (s post : string) : contains (s ++ post) s.
Proof. now exists "", post. Qed.

(** X16.  Lines 171-175 only cut at the two ends: the text handed to
    [json.loads] is one unbroken piece of the generated text, and nothing
    inside it is changed. *)
Theorem clean_text_is_a_piece (generated_text : string) :
  contains generated_text (clean_generated_text generated_text).
Proof.
  unfold clean_generated_text.
  assert (H0 : contains generated_text (strip generated_text)).
  { unfold strip.
    destruct (lstrip_is_suffix generated_text) as [pre Hpre].
    destruct (rstrip_is_prefix (lstrip generated_text)) as [post Hpost].
    apply (contains_trans _ (lstrip generated_text)).
    - rewrite Hpre at 1. apply contains_suffix.
    - rewrite Hpost at 1. apply contains_prefix. }
  set (t0 := strip generated_text) in *.
  assert (H1 : contains generated_text
                 (if startswith t0 "```json" then slice_from 7 t0 else t0)).
  { destruct (startswith t0 "```json"); [|exact H0].
    apply (contains_trans _ t0); [exact H0|].
    destruct (slice_from_is_suffix 7 t0) as [pre Hpre].
    rewrite Hpre at 1. apply contains_suffix. }
  set (t1 := if startswith t0 "```json" then slice_from 7 t0 else t0) in *.
  destruct (endswith t1 "```"); [|exact H1].
  apply (contains_trans _ t1); [exact H1|].
  unfold slice_to_neg.
  destruct (slice_to_is_prefix (String.length t1 - 3) t1) as [post Hpost].
  rewrite Hpost at 1. apply contains_prefix.
Qed.

(* ===================================================================== *)
(** * Properties of the page *)
(* ===================================================================== *)

(** ** Building the generator *)

Section InitialisationFacts.

Variable genai_configure : string -> Outcome unit.
Variable genai_GenerativeModel : string -> Outcome GenerativeModel.

(** X17.  [__init__] keeps the two readiness attributes in step and
    reports what it did.  The object always records the API key it found.
    It is configured exactly when the key is non-empty, [genai.configure]
    returned and the model named by [GEMINI_MODEL_NAME] (by default
    ["gemini-1.5-flash-latest"]) was created; it then holds that model as
    its client, so that "not ready" means "not configured".  The sidebar
    gets exactly one message, a success message exactly when the object
    is configured. *)
Theorem init_readiness (environ : Environ) :
  gemini_api_key (snd (__init__ genai_configure genai_GenerativeModel environ))
  = GEMINI_API_KEY environ
  /\ not_ready
       (as_generator (snd (__init__ genai_configure genai_GenerativeModel environ)))
     = negb (is_configured
               (as_generator
                  (snd (__init__ genai_configure genai_GenerativeModel environ))))
  /\ (is_configured
        (as_generator (snd (__init__ genai_configure genai_GenerativeModel environ)))
      = true
      <-> exists k model,
            GEMINI_API_KEY environ = Some k
            /\ k <> ""
            /\ genai_configure k = Returned tt
            /\ genai_GenerativeModel
                 (match GEMINI_MODEL_NAME environ with
                  | Some n => n
                  | None => "gemini-1.5-flash-latest"
                  end)
               = Returned model
            /\ client
                 (as_generator
                    (snd (__init__ genai_configure genai_GenerativeModel environ)))
               = Some model)
  /\ exists message,
       fst (__init__ genai_configure genai_GenerativeModel environ) = [message]
       /\ (is_configured
             (as_generator
                (snd (__init__ genai_configure genai_GenerativeModel environ)))
           = true
           <-> exists text, message = SidebarSuccess text).
Proof.
  unfold __init__.
  destruct (GEMINI_API_KEY environ) as [k|] eqn:Hkey.
  - destruct (str_truthy k) eqn:Hk.
    + destruct (genai_configure k) as [[]|e] eqn:Hconf.
      * destruct (genai_GenerativeModel _) as [model|e] eqn:Hmodel; cbn.
        -- repeat split; eauto.
           ++ intros _. exists k, model. repeat split; auto.
              intros ->. discriminate Hk.
           ++ eexists. split; [reflexivity|]. split; eauto.
        -- repeat split; try discriminate.
           ++ intros (k' & m & Hk' & _ & _ & Hm & _). congruence.
           ++ eexists. split; [reflexivity|].
              split; [discriminate|intros [t Ht]; discriminate Ht].
      * cbn. repeat split; try discriminate.
        -- intros (k' & m & Hk' & _ & Hc & _).
           injection Hk' as <-. congruence.
        -- eexists. split; [reflexivity|].
           split; [discriminate|intros [t Ht]; discriminate Ht].
    + cbn. repeat split; try discriminate.
      * intros (k' & m & Hk' & Hne & _). injection Hk' as <-.
        apply str_truthy_false in Hk. contradiction.
      * eexists. split; [reflexivity|].
        split; [discriminate|intros [t Ht]; discriminate Ht].
  - cbn. repeat split; try discriminate.
    + intros (k' & m & Hk' & _). discriminate Hk'.
    + eexists. split; [reflexivity|].
      split; [discriminate|intros [t Ht]; discriminate Ht].
Qed.

Lemma init_key (environ : Environ) :
  gemini_api_key (snd (__init__ genai_configure genai_GenerativeModel environ))
  = GEMINI_API_KEY environ.
Proof.
  unfold __init__.
  destruct (GEMINI_API_KEY environ) as [k|]; [|reflexivity].
  destruct (str_truthy k); [|reflexivity].
  destruct (genai_configure k); [|reflexivity].
  destruct (genai_GenerativeModel _); reflexivity.
Qed.

Lemma opt_differ_false (a b : option string) : opt_differ a b = false -> a = b.
Proof.
  destruct a as [x|], b as [y|]; cbn; try discriminate; [|reflexivity].
  intros H. apply negb_false_iff, String.eqb_eq in H. now subst.
Qed.

Lemma opt_differ_refl (a : option string) : opt_differ a a = false.
Proof. destruct a as [x|]; cbn; [now rewrite String.eqb_refl|reflexivity]. Qed.

(** The initial value of the key field (lines 260-262). *)
Lemma sidebar_environ (text_input : string -> string) (ps : PageState) :
  exists initial,
    environ (snd (sidebar genai_configure genai_GenerativeModel text_input ps))
    = (if str_truthy (text_input initial)
       then mkEnviron (Some (text_input initial)) (GEMINI_MODEL_NAME (environ ps))
       else environ ps)
    /\ st_gemini_api_key
         (snd (sidebar genai_configure genai_GenerativeModel text_input ps))
       = Some (text_input initial).
Proof.
  unfold sidebar. eexists.
  match goal with
  | |- context [let '(_, _) := ?x in _] => destruct x
  end.
  split; reflexivity.
Qed.

(** X18.  After the sidebar has run, the generator in the session, if
    any, was built for the key now in the environment.  Provided the
    generator found in the session, if configured, holds a non-empty key
    (as every generator built by [__init__] does): the session holds a
    generator exactly when the environment holds a non-empty key, and the
    generator's key is that key.  The same proviso holds again
    afterwards. *)
Theorem sidebar_generator_matches_key (text_input : string -> string)
    (ps : PageState) :
  (forall gen,
     st_ai_question_gen ps = Some gen ->
     is_configured (as_generator gen) = true ->
     opt_truthy (gemini_api_key gen) = true) ->
  ((exists gen,
       st_ai_question_gen
         (snd (sidebar genai_configure genai_GenerativeModel text_input ps))
       = Some gen)
   <-> opt_truthy
         (GEMINI_API_KEY
            (environ (snd (sidebar genai_configure genai_GenerativeModel
                             text_input ps))))
       = true)
  /\ (forall gen,
        st_ai_question_gen
          (snd (sidebar genai_configure genai_GenerativeModel text_input ps))
        = Some gen ->
        gemini_api_key gen
        = GEMINI_API_KEY
            (environ (snd (sidebar genai_configure genai_GenerativeModel
                             text_input ps)))
        /\ opt_truthy (gemini_api_key gen) = true).
Proof.
  intros Hsane. unfold sidebar.
  set (typed := text_input _).
  set (environ1 := if str_truthy typed then _ else _).
  destruct (st_ai_question_gen ps) as [g|] eqn:Hg.
  - destruct (opt_differ (gemini_api_key g) (GEMINI_API_KEY environ1)) eqn:Hd;
      cbn [orb].
    + destruct (opt_truthy (GEMINI_API_KEY environ1)) eqn:Hk.
      * destruct (__init__ genai_configure genai_GenerativeModel environ1)
          as [fx gen] eqn:Hinit.
        cbn. rewrite Hk. split; [split; eauto|].
        intros gen' H. injection H as <-.
        pose proof (init_key environ1) as Hkey. rewrite Hinit in Hkey.
        cbn in Hkey. rewrite Hkey. now split.
      * cbn. rewrite Hk. split; [split; [intros [? H]|]; discriminate|].
        intros gen' H. discriminate H.
    + apply opt_differ_false in Hd.
      destruct (is_configured (as_generator g)) eqn:Hconf; cbn [negb].
      * cbn. split.
        -- rewrite <- Hd, (Hsane g eq_refl Hconf). split; eauto.
        -- intros gen' H. injection H as <-. split; [exact Hd|].
           exact (Hsane g eq_refl Hconf).
      * destruct (opt_truthy (GEMINI_API_KEY environ1)) eqn:Hk.
        -- destruct (__init__ genai_configure genai_GenerativeModel environ1)
             as [fx gen] eqn:Hinit.
           cbn. rewrite Hk. split; [split; eauto|].
           intros gen' H. injection H as <-.
           pose proof (init_key environ1) as Hkey. rewrite Hinit in Hkey.
           cbn in Hkey. rewrite Hkey. now split.
        -- cbn. rewrite Hk. split; [split; [intros [? H]|]; discriminate|].
           intros gen' H. discriminate H.
  - destruct (opt_truthy (GEMINI_API_KEY environ1)) eqn:Hk.
    + destruct (__init__ genai_configure genai_GenerativeModel environ1)
        as [fx gen] eqn:Hinit.
      cbn. rewrite Hk. split; [split; eauto|].
      intros gen' H. injection H as <-.
      pose proof (init_key environ1) as Hkey. rewrite Hinit in Hkey.
      cbn in Hkey. rewrite Hkey. now split.
    + cbn. rewrite Hk. split; [split; [intros [? H]|]; discriminate|].
      intros gen' H. discriminate H.
Qed.

End InitialisationFacts.

(** X19.  A configured generator whose key is the key of the environment
    is kept as it is when the key field returns that key or returns the
    empty string: the sidebar calls neither [genai.configure] nor
    [genai.GenerativeModel] again, whatever they would do, shows the
    "Using" line with the generator's model name, and leaves the key in
    the environment.  An emptied field does not remove the key. *)
Theorem sidebar_keeps_configured_generator
    (configure1 configure2 : string -> Outcome unit)
    (create1 create2 : string -> Outcome GenerativeModel)
    (text_input : string -> string) (ps : PageState) (gen : GeneratorObject)
    (key name field : string) :
  st_ai_question_gen ps = Some gen ->
  is_configured (as_generator gen) = true ->
  gemini_api_key gen = Some key ->
  model_name gen = Some name ->
  GEMINI_API_KEY (environ ps) = Some key ->
  st_gemini_api_key ps = Some field ->
  text_input field = key \/ text_input field = "" ->
  sidebar configure1 create1 text_input ps
  = sidebar configure2 create2 text_input ps
  /\ fst (sidebar configure1 create1 text_input ps)
     = [SidebarInfo ("Using: Gemini (" ++ name ++ ")")]
  /\ st_ai_question_gen (snd (sidebar configure1 create1 text_input ps))
     = Some gen
  /\ GEMINI_API_KEY (environ (snd (sidebar configure1 create1 text_input ps)))
     = Some key.
Proof.
  intros Hg Hconf Hkey Hname Henv Hfield Htyped.
  assert (Hrun : forall configure create,
    sidebar configure create text_input ps
    = ([SidebarInfo ("Using: Gemini (" ++ name ++ ")")],
       mkPage_state
         (if str_truthy (text_input field)
          then mkEnviron (Some (text_input field)) (GEMINI_MODEL_NAME (environ ps))
          else environ ps)
         (Some (text_input field)) (Some "gemini") (Some gen)
         (st_resume ps) (st_generated_questions ps)
         (st_current_question_to_answer ps) (st_current_answer ps))).
  { intros configure create. unfold sidebar. rewrite Hfield, Hg, Hkey, Hconf.
    assert (Hsame : opt_differ (Some key)
                      (GEMINI_API_KEY
                         (if str_truthy (text_input field)
                          then mkEnviron (Some (text_input field))
                                         (GEMINI_MODEL_NAME (environ ps))
                          else environ ps)) = false).
    { destruct Htyped as [->| ->].
      - destruct (str_truthy key); [|rewrite Henv];
          apply (opt_differ_refl (Some key)).
      - cbn [str_truthy]. rewrite Henv. apply (opt_differ_refl (Some key)). }
    rewrite Hsame. cbn [orb negb]. rewrite Hconf, Hname. reflexivity. }
  rewrite (Hrun configure1 create1), (Hrun configure2 create2).
  cbn [fst snd st_ai_question_gen environ]. repeat split.
  destruct Htyped as [->| ->].
  - destruct (str_truthy key); [reflexivity|exact Henv].
  - exact Henv.
Qed.

(** ** Uploading a resume *)

Lemma length_slice_to (n : nat) (s : string) :
  String.length (slice_to n s) = Nat.min n (String.length s).
Proof.
  revert s. induction n as [|n IH]; intros s; [reflexivity|].
  destruct s as [|c s]; [reflexivity|]. cbn. now rewrite IH.
Qed.

(** X20.  The preview of the resume is the first 1000 characters of the
    extracted text followed by three dots, also when the text is shorter:
    it is shown only for a text that is not empty and is never longer
    than 1003 characters. *)
Theorem preview_is_bounded (u : Upload) (label body : string) :
  In (ExpanderText label body) (show_resume u) ->
  exists extracted,
    up_text u = Some extracted
    /\ extracted <> ""
    /\ body = slice_to 1000 extracted ++ "..."
    /\ String.length body = Nat.min 1000 (String.length extracted) + 3
    /\ String.length body <= 1003.
Proof.
  unfold show_resume. intros Hin. apply in_app_or in Hin.
  destruct Hin as [Hin|Hin].
  - destruct (up_bytes u); [destruct Hin|].
    destruct Hin as [H|[]]. discriminate H.
  - destruct (up_text u) as [[|c r]|]; try (destruct Hin as [H|[]]; discriminate H).
    destruct Hin as [H|[]]. injection H as _ <-.
    exists (String c r). split; [reflexivity|]. split; [discriminate|].
    split; [reflexivity|].
    assert (Hlen : String.length (slice_to 1000 (String c r) ++ "...")
                   = Nat.min 1000 (String.length (String c r)) + 3)
      by (rewrite length_append, length_slice_to; reflexivity).
    split; [exact Hlen|].
    apply (Nat.le_trans _ (Nat.min 1000 (String.length (String c r)) + 3));
      [apply Nat.eq_le_incl; exact Hlen|lia].
Qed.

Section UploadFacts.

Variable fitz_open : list Byte.byte -> Outcome Document.

Lemma extract_returns (pdf_bytes : list Byte.byte) :
  exists fx extracted,
    extract_text_from_pdf_bytes fitz_open pdf_bytes = (fx, Returned extracted)
    /\ (fx = []
        \/ exists e, fx = [StError ("Error extracting text from PDF: " ++ exc_str e)]
                     /\ extracted = None).
Proof.
  unfold extract_text_from_pdf_bytes, lift.
  destruct (fitz_open pdf_bytes) as [doc|e].
  - rewrite bind_returned. cbn [app].
    destruct (extract_pages_spec (doc_pages doc) "")
      as [(texts & _ & Hrun)|(e & _ & Hrun)]; rewrite Hrun.
    + rewrite bind_returned. cbn [app fst snd].
      destruct (doc_close doc) as [[]|e]; cbn.
      * eexists. eexists. split; [reflexivity|now left].
      * eexists. eexists. split; [reflexivity|right; eauto].
    + cbn. eexists. eexists. split; [reflexivity|right; eauto].
  - cbn. eexists. eexists. split; [reflexivity|right; eauto].
Qed.

Lemma upload_fresh (ps : PageState) (name : string) (data : list Byte.byte) :
  (forall u, st_resume ps = Some u -> up_filename u <> name) ->
  exists fx extracted,
    extract_text_from_pdf_bytes fitz_open data = (fx, Returned extracted)
    /\ upload fitz_open (Some (name, data)) ps
       = ((map Core fx ++ show_resume (mkUpload name data extracted))%list,
          Returned (mkPage_state (environ ps) (st_gemini_api_key ps)
                                 (st_model_type ps) (st_ai_question_gen ps)
                                 (Some (mkUpload name data extracted))
                                 None None None)).
Proof.
  intros Hfresh.
  destruct (extract_returns data) as (fx & extracted & Hrun & _).
  exists fx, extracted. split; [exact Hrun|].
  unfold upload.
  assert (Hf : match st_resume ps with
               | None => true
               | Some u => negb (String.eqb (up_filename u) name)
               end = true).
  { destruct (st_resume ps) as [u|]; [|reflexivity].
    apply negb_true_iff, String.eqb_neq. now apply Hfresh. }
  rewrite Hf, Hrun. reflexivity.
Qed.

(** X21.  A file whose name is not the one stored is read anew, whatever
    the session held: the stored name, bytes and text become those of the
    file, the text being what [extract_text_from_pdf_bytes] returns, and
    the generated questions, the open question and its answer are
    dropped.  The step never raises. *)
Theorem new_upload_replaces_resume (ps : PageState) (name : string)
    (data : list Byte.byte) :
  (forall u, st_resume ps = Some u -> up_filename u <> name) ->
  exists fx extracted,
    extract_text_from_pdf_bytes fitz_open data = (fx, Returned extracted)
    /\ upload fitz_open (Some (name, data)) ps
       = ((map Core fx ++ show_resume (mkUpload name data extracted))%list,
          Returned (mkPage_state (environ ps) (st_gemini_api_key ps)
                                 (st_model_type ps) (st_ai_question_gen ps)
                                 (Some (mkUpload name data extracted))
                                 None None None)).
Proof. apply upload_fresh. Qed.

(** X22.  Whatever is uploaded, the step returns with a resume stored
    under the file's name, and shows either the preview or the error
    ["Could not extract text from the uploaded PDF."], never both and
    never neither: the error exactly when the stored text is missing or
    empty, as for a PDF with no text layer. *)
Theorem upload_shows_preview_or_error (ps : PageState) (name : string)
    (data : list Byte.byte) :
  exists fx ps' u,
    upload fitz_open (Some (name, data)) ps = (fx, Returned ps')
    /\ st_resume ps' = Some u
    /\ up_filename u = name
    /\ (In (Core (StError "Could not extract text from the uploaded PDF.")) fx
        <-> opt_truthy (up_text u) = false)
    /\ ((exists label body, In (ExpanderText label body) fx)
        <-> opt_truthy (up_text u) = true).
Proof.
  assert (Hshow : forall u,
    (In (Core (StError "Could not extract text from the uploaded PDF."))
        (show_resume u) <-> opt_truthy (up_text u) = false)
    /\ ((exists label body, In (ExpanderText label body) (show_resume u))
        <-> opt_truthy (up_text u) = true)).
  { intros u. unfold show_resume.
    assert (Hb : forall w, In w (match up_bytes u with
                                 | [] => []
                                 | d => [DownloadButton d (up_filename u) "application/pdf"]
                                 end) ->
                           exists d f m, w = DownloadButton d f m).
    { intros w. destruct (up_bytes u); [intros []|].
      intros [<-|[]]. eauto. }
    split; split.
    - intros Hin. apply in_app_or in Hin. destruct Hin as [Hin|Hin].
      + apply Hb in Hin. destruct Hin as (d & f & m & H). discriminate H.
      + destruct (up_text u) as [[|c r]|]; try reflexivity.
        destruct Hin as [H|[]]. discriminate H.
    - intros Hf. apply in_or_app. right.
      destruct (up_text u) as [[|c r]|]; first [now left|discriminate Hf].
    - intros (label & body & Hin). apply in_app_or in Hin.
      destruct Hin as [Hin|Hin].
      + apply Hb in Hin. destruct Hin as (d & f & m & H). discriminate H.
      + destruct (up_text u) as [[|c r]|]; try reflexivity;
          destruct Hin as [H|[]]; discriminate H.
    - intros Ht. destruct (up_text u) as [[|c r]|]; try discriminate Ht.
      eexists. eexists. apply in_or_app. right. now left. }
  destruct (st_resume ps) as [u0|] eqn:Hres.
  - destruct (String.eqb (up_filename u0) name) eqn:Hname.
    + exists (show_resume u0), ps, u0.
      unfold upload. rewrite Hres, Hname. cbn [negb].
      apply String.eqb_eq in Hname.
      repeat split; try assumption; apply Hshow.
    + destruct (upload_fresh ps name data) as (fx & extracted & Hrun & Hup).
      { intros u Hu. rewrite Hres in Hu. injection Hu as <-.
        now apply String.eqb_neq. }
      rewrite Hup. eexists. eexists. exists (mkUpload name data extracted).
      split; [reflexivity|]. split; [reflexivity|]. split; [reflexivity|].
      destruct (extract_returns data) as (fx' & t' & Hrun' & Hfx).
      rewrite Hrun in Hrun'. injection Hrun' as <- <-.
      destruct (Hshow (mkUpload name data extracted)) as [He Hp].
      split; split.
      * intros Hin. apply in_app_or in Hin. destruct Hin as [Hin|Hin];
          [|now apply He].
        destruct Hfx as [->|(e & -> & _)]; [destruct Hin|].
        destruct Hin as [H|[]]. discriminate H.
      * intros Hf. apply in_or_app. right. now apply He.
      * intros (label & body & Hin). apply in_app_or in Hin.
        destruct Hin as [Hin|Hin]; [|apply Hp; eauto].
        destruct Hfx as [->|(e & -> & _)]; [destruct Hin|].
        destruct Hin as [H|[]]. discriminate H.
      * intros Ht. destruct (proj2 Hp Ht) as (label & body & Hin).
        exists label, body. apply in_or_app. now right.
  - destruct (upload_fresh ps name data) as (fx & extracted & Hrun & Hup).
    { intros u Hu. rewrite Hres in Hu. discriminate Hu. }
    rewrite Hup. eexists. eexists. exists (mkUpload name data extracted).
    split; [reflexivity|]. split; [reflexivity|]. split; [reflexivity|].
    destruct (extract_returns data) as (fx' & t' & Hrun' & Hfx).
    rewrite Hrun in Hrun'. injection Hrun' as <- <-.
    destruct (Hshow (mkUpload name data extracted)) as [He Hp].
    split; split.
    + intros Hin. apply in_app_or in Hin. destruct Hin as [Hin|Hin];
        [|now apply He].
      destruct Hfx as [->|(e & -> & _)]; [destruct Hin|].
      destruct Hin as [H|[]]. discriminate H.
    + intros Hf. apply in_or_app. right. now apply He.
    + intros (label & body & Hin). apply in_app_or in Hin.
      destruct Hin as [Hin|Hin]; [|apply Hp; eauto].
      destruct Hfx as [->|(e & -> & _)]; [destruct Hin|].
      destruct Hin as [H|[]]. discriminate H.
    + intros Ht. destruct (proj2 Hp Ht) as (label & body & Hin).
      exists label, body. apply in_or_app. now right.
Qed.

End UploadFacts.

(** X23.  A file that has the name of the stored resume is not read
    again: the step opens nothing, whatever the bytes are and whatever
    [fitz.open] would do with them, changes nothing in the session, and
    shows the stored resume.  The text and the questions of the first
    file stay. *)
Theorem same_name_is_not_read_again
    (fitz_open1 fitz_open2 : list Byte.byte -> Outcome Document)
    (ps : PageState) (u : Upload) (data1 data2 : list Byte.byte) :
  st_resume ps = Some u ->
  upload fitz_open1 (Some (up_filename u, data1)) ps
  = (show_resume u, Returned ps)
  /\ upload fitz_open1 (Some (up_filename u, data1)) ps
     = upload fitz_open2 (Some (up_filename u, data2)) ps.
Proof.
  intros Hres. unfold upload. rewrite Hres, String.eqb_refl. cbn [negb].
  split; reflexivity.
Qed.

(** ** From the upload to the request *)

Section FlowFacts.

Variable json_loads : string -> Outcome json.
Variable fitz_open : list Byte.byte -> Outcome Document.

(** X24.  A resume that could not be read, or has no text, never reaches
    the service.  After the upload of a new file whose extraction gave
    nothing or the empty string, a click on the button, with a configured
    generator in the session, sends no request: it shows the warning
    ["Please upload a resume first."] and leaves the session as it is. *)
Theorem unreadable_resume_sends_nothing (ps ps' : PageState) (name : string)
    (data : list Byte.byte) (fx : list PageEffect) (gen : GeneratorObject)
    (job_description : string) :
  (forall u, st_resume ps = Some u -> up_filename u <> name) ->
  upload fitz_open (Some (name, data)) ps = (fx, Returned ps') ->
  (outcome (extract_text_from_pdf_bytes fitz_open data) = Returned None
   \/ outcome (extract_text_from_pdf_bytes fitz_open data) = Returned (Some "")) ->
  st_ai_question_gen ps = Some gen ->
  is_configured (as_generator gen) = true ->
  on_generate_click json_loads (session_of ps') job_description
  = ([StWarning "Please upload a resume first."], Returned (session_of ps')).
Proof.
  intros Hfresh Hup Hext Hgen Hconf.
  destruct (upload_fresh fitz_open ps name data Hfresh)
    as (fx0 & extracted & Hrun & Hup').
  rewrite Hup' in Hup. injection Hup as _ <-.
  rewrite Hrun in Hext. cbn [outcome snd] in Hext.
  unfold on_generate_click, session_of.
  cbn [st_ai_question_gen st_resume up_text ai_question_gen resume_text].
  rewrite Hgen. cbn [option_map]. rewrite Hconf. cbn [negb].
  destruct Hext as [H|H]; injection H as ->; reflexivity.
Qed.

(** X25.  The text of the uploaded file is what the service is asked
    about.  After the upload of a new file whose extraction gave a text
    that is not empty, a click on the button, with a configured generator
    in the session, sends exactly one request, first, whose prompt is
    built from that text and the job description and contains the text as
    it was extracted. *)
Theorem uploaded_text_reaches_the_prompt (ps ps' : PageState) (name : string)
    (data : list Byte.byte) (fx : list PageEffect) (gen : GeneratorObject)
    (extracted job_description : string) :
  (forall u, st_resume ps = Some u -> up_filename u <> name) ->
  upload fitz_open (Some (name, data)) ps = (fx, Returned ps') ->
  outcome (extract_text_from_pdf_bytes fitz_open data) = Returned (Some extracted) ->
  extracted <> "" ->
  st_ai_question_gen ps = Some gen ->
  not_ready (as_generator gen) = false ->
  exists rest,
    effects (on_generate_click json_loads (session_of ps') job_description)
    = GenerateContent (build_prompt extracted (Some job_description)) :: rest
    /\ request_count rest = 0
    /\ contains (build_prompt extracted (Some job_description)) extracted.
Proof.
  intros Hfresh Hup Hext Hne Hgen Hready.
  destruct (upload_fresh fitz_open ps name data Hfresh)
    as (fx0 & t & Hrun & Hup').
  rewrite Hup' in Hup. injection Hup as _ <-.
  rewrite Hrun in Hext. cbn [outcome snd] in Hext. injection Hext as ->.
  assert (Hconf : is_configured (as_generator gen) = true).
  { unfold not_ready in Hready.
    destruct (client (as_generator gen)); [|discriminate].
    now apply negb_false_iff in Hready. }
  destruct (generate_questions_effects json_loads (as_generator gen)
              extracted (Some job_description) Hready) as (rest & Hfx & Hcount).
  unfold on_generate_click, session_of.
  cbn [st_ai_question_gen st_resume up_text ai_question_gen resume_text].
  rewrite Hgen. cbn [option_map]. rewrite Hconf. cbn [negb].
  destruct extracted as [|c r]; [congruence|].
  destruct (generate_questions_from_text json_loads (as_generator gen)
              (String c r) (Some job_description)) as [gfx [qs|e]].
  - cbn [effects fst] in Hfx. subst gfx. rewrite bind_returned.
    eexists. split; [reflexivity|]. split.
    + rewrite request_count_app, Hcount.
      destruct (is_error_in_response qs) as [efx [b|e]] eqn:He.
      * assert (efx = []) as ->.
        { unfold is_error_in_response in He.
          destruct (technical qs) as [| | | |[|[] ?]|]; now injection He as <-. }
        rewrite bind_returned.
        destruct (negb b && has_any_actual_questions qs); reflexivity.
      * assert (efx = []) as ->.
        { unfold is_error_in_response in He.
          destruct (technical qs) as [| | | |[|[] ?]|]; now injection He as <-. }
        reflexivity.
    + exists prompt_head,
             (prompt_mid ++ job_description_section (Some job_description)
                ++ prompt_tail).
      reflexivity.
  - cbn [effects fst] in Hfx. subst gfx. rewrite bind_raised.
    eexists. split; [reflexivity|]. split; [exact Hcount|].
    exists prompt_head,
           (prompt_mid ++ job_description_section (Some job_description)
              ++ prompt_tail).
    reflexivity.
Qed.

End FlowFacts.

(* ===================================================================== *)
(** * The further properties at sample inputs *)
(* ===================================================================== *)

Import PageSample.

Lemma first_candidate_with (c : Candidate) (prompt : string) :
  first_candidate (generator_with c) prompt c.
Proof. eexists. eexists. repeat split. Defined.

(** X4 at the [RetryError] of a retry deadline. *)
Lemma only_handler_fault_escapes_witness :
  exists model e0 attr,
    client (generator_answering (Raised retry_error)) = Some model
    /\ (generate_content model (build_prompt "resume" None) = Raised e0
        \/ exists t, RefJson.loads t = Raised e0)
    /\ exc_class e0 = IsGoogleAPIError
    /\ ((attr = "message" /\ exc_message e0 = None)
        \/ (attr = "code" /\ exc_code e0 = None))
    /\ attribute_error "RetryError" "code" = attribute_error (exc_type_name e0) attr
    /\ quiet [GenerateContent (build_prompt "resume" None)].
Proof.
  apply (only_handler_fault_escapes RefJson.loads
           (generator_answering (Raised retry_error)) "resume" None
           [GenerateContent (build_prompt "resume" None)]
           (attribute_error "RetryError" "code")).
  reflexivity.
Defined.

(** X5 at a blocked response that also carries a candidate with valid
    text. *)
Lemma blocked_prompt_wins_witness :
  generate_questions_from_text RefJson.loads
    (generator_answering
       (Returned (mkResponse (Some (mkFeedback BLOCK_SAFETY []))
                             [candidate_with STOP four_keys_text])))
    "resume" None
  = ([GenerateContent (build_prompt "resume" None);
      StError ("Gemini API blocked the prompt. Reason: "
                 ++ enum_str BLOCK_SAFETY ++ "." ++ nl
                 ++ "Safety Ratings:" ++ nl ++ format_ratings [])],
     Returned (error_structure
                 ("Prompt blocked by safety settings (Reason: "
                    ++ enum_str BLOCK_SAFETY ++ ")."))).
Proof.
  apply (blocked_prompt_wins RefJson.loads
           (generator_answering
              (Returned (mkResponse (Some (mkFeedback BLOCK_SAFETY []))
                                    [candidate_with STOP four_keys_text])))
           "resume" None
           (mkModel (fun _ =>
              Returned (mkResponse (Some (mkFeedback BLOCK_SAFETY []))
                                   [candidate_with STOP four_keys_text])))
           (mkFeedback BLOCK_SAFETY []) [candidate_with STOP four_keys_text]);
    [reflexivity|reflexivity|reflexivity|discriminate].
Defined.

(** X6 at a rated candidate cut short by the token limit that carries the
    four keys. *)
Lemma partial_content_is_decoded_witness :
  generate_questions_from_text RefJson.loads
    (generator_with (rated_candidate four_keys_text)) "resume" None
  = ([GenerateContent (build_prompt "resume" None);
      StWarning
        ("Gemini API request finished atypically. Reason: "
           ++ reason_str MAX_TOKENS ++ "."
           ++ (nl ++ "Safety Ratings:" ++ nl
                  ++ format_ratings [mkRating "HARM_CATEGORY_HARASSMENT" "NEGLIGIBLE"])
           ++ nl ++ "Attempting to use partial content.")],
     Returned (question_set_of four_keys_dict)).
Proof.
  apply (partial_content_is_decoded RefJson.loads
           (generator_with (rated_candidate four_keys_text)) "resume" None
           (rated_candidate four_keys_text) four_keys_dict).
  - apply first_candidate_with.
  - discriminate.
  - reflexivity.
  - vm_compute. reflexivity.
Defined.

(** X7 at a candidate cut short by the token limit that carries three
    spaces. *)
Lemma blank_partial_content_fails_witness :
  generate_questions_from_text RefJson.loads
    (generator_with (candidate_with MAX_TOKENS "   ")) "resume" None
  = ([GenerateContent (build_prompt "resume" None);
      StWarning
        ("Gemini API request finished atypically. Reason: "
           ++ reason_str MAX_TOKENS ++ "." ++ ""
           ++ nl ++ "Attempting to use partial content.");
      StError "Gemini API returned empty text content, possibly due to safety filters or an issue with the prompt response."],
     Returned (error_structure "Empty text content from API.")).
Proof.
  apply (blank_partial_content_fails RefJson.loads
           (generator_with (candidate_with MAX_TOKENS "   ")) "resume" None
           (candidate_with MAX_TOKENS "   ")).
  - apply first_candidate_with.
  - discriminate.
  - discriminate.
  - reflexivity.
Defined.

(** X8 at the text [[1]]. *)
Lemma non_object_json_fails_witness :
  outcome (generate_questions_from_text RefJson.loads
             (generator_with (candidate_with STOP "[1]")) "resume" None)
  = Returned (error_structure
                ("Unexpected error: '" ++ type_name (JArray [JNumber "1"])
                   ++ "' object has no attribute 'get'"))
  /\ reports_error
       (effects (generate_questions_from_text RefJson.loads
                   (generator_with (candidate_with STOP "[1]")) "resume" None)).
Proof.
  apply (non_object_json_fails RefJson.loads
           (generator_with (candidate_with STOP "[1]")) "resume" None
           (candidate_with STOP "[1]") (JArray [JNumber "1"])).
  - apply first_candidate_with.
  - reflexivity.
  - vm_compute. reflexivity.
  - discriminate.
Defined.

(** X9 at prose instead of JSON. *)
Lemma malformed_json_fails_witness :
  outcome (generate_questions_from_text RefJson.loads
             (generator_with (candidate_with STOP "Sure, here are some questions..."))
             "resume" None)
  = Returned (error_structure
                ("Malformed JSON from API: "
                   ++ exc_str (RefJson.decode_error "Expecting value"
                                 "Sure, here are some questions..." 0)))
  /\ reports_error
       (effects (generate_questions_from_text RefJson.loads
                   (generator_with
                      (candidate_with STOP "Sure, here are some questions..."))
                   "resume" None)).
Proof.
  apply (malformed_json_fails RefJson.loads
           (generator_with (candidate_with STOP "Sure, here are some questions..."))
           "resume" None
           (candidate_with STOP "Sure, here are some questions...")
           (RefJson.decode_error "Expecting value"
              "Sure, here are some questions..." 0)).
  - apply first_candidate_with.
  - reflexivity.
  - vm_compute. reflexivity.
  - reflexivity.
Defined.

(** X10 at a [ServiceUnavailable]. *)
Lemma api_call_error_fails_witness :
  generate_questions_from_text RefJson.loads
    (generator_answering (Raised service_unavailable)) "resume" None
  = ([GenerateContent (build_prompt "resume" None);
      StError ("Gemini API Error: " ++ "The model is overloaded."
                 ++ " (Code: " ++ "503" ++ ")")],
     Returned (error_structure ("Gemini API Error: " ++ "The model is overloaded."))).
Proof.
  apply (api_call_error_fails RefJson.loads
           (generator_answering (Raised service_unavailable)) "resume" None
           (mkModel (fun _ => Raised service_unavailable)) service_unavailable);
    reflexivity.
Defined.

(** X11 at a candidate with finish reason 7 and no content. *)
Lemma unknown_finish_reason_fails_witness :
  exists ui,
    generate_questions_from_text RefJson.loads
      (generator_with (bare_candidate REASON_7)) "resume" None
    = ([GenerateContent (build_prompt "resume" None); StError ui],
       Returned (error_structure
                   ("API request finished: UNKNOWN ("
                      ++ enum_format REASON_7 ++ ")." ++ ""))).
Proof.
  apply (unknown_finish_reason_fails RefJson.loads
           (generator_with (bare_candidate REASON_7)) "resume" None
           (bare_candidate REASON_7)).
  - apply first_candidate_with.
  - right. reflexivity.
  - reflexivity.
Defined.

(** X12 at prose instead of JSON. *)
Lemma failure_shows_no_success_witness :
  on_generate_click RefJson.loads
    (session_with
       (generator_with (candidate_with STOP "Sure, here are some questions..."))
       (Some "Jane Doe"))
    "Backend intern"
  = ([GenerateContent (build_prompt "Jane Doe" (Some "Backend intern"));
      StError "Error decoding JSON from AI response: Expecting value: line 1 column 1 (char 0). Check the raw response below."],
     Returned
       (mkSession
          (Some (generator_with
                   (candidate_with STOP "Sure, here are some questions...")))
          (Some "Jane Doe")
          (Some (error_structure
                   "Malformed JSON from API: Expecting value: line 1 column 1 (char 0)"))
          None None)).
Proof.
  apply (failure_shows_no_success RefJson.loads
           (session_with
              (generator_with
                 (candidate_with STOP "Sure, here are some questions..."))
              (Some "Jane Doe"))
           (generator_with (candidate_with STOP "Sure, here are some questions..."))
           "J"%char "ane Doe" "Backend intern").
  - reflexivity.
  - reflexivity.
  - reflexivity.
  - vm_compute. reflexivity.
  - reflexivity.
Defined.

(** X13 at the text [{"technical": [1]}]. *)
Lemma non_string_question_breaks_handler_witness :
  on_generate_click RefJson.loads
    (session_with (generator_with (candidate_with STOP number_text))
                  (Some "Jane Doe"))
    "Backend intern"
  = ([GenerateContent (build_prompt "Jane Doe" (Some "Backend intern"))],
     Raised (attribute_error (type_name (JNumber "1")) "startswith")).
Proof.
  apply (non_string_question_breaks_handler RefJson.loads
           (session_with (generator_with (candidate_with STOP number_text))
                         (Some "Jane Doe"))
           (generator_with (candidate_with STOP number_text))
           "J"%char "ane Doe" "Backend intern"
           [GenerateContent (build_prompt "Jane Doe" (Some "Backend intern"))]
           (question_set_of [("technical", JArray [JNumber "1"])])
           (JNumber "1") []).
  - reflexivity.
  - reflexivity.
  - reflexivity.
  - vm_compute. reflexivity.
  - reflexivity.
  - discriminate.
Defined.

(** X14 at the four keys with one question. *)
Lemma real_questions_show_success_witness :
  on_generate_click RefJson.loads
    (session_with (generator_with (candidate_with STOP four_keys_text))
                  (Some "Jane Doe"))
    "Backend intern"
  = (([GenerateContent (build_prompt "Jane Doe" (Some "Backend intern"))]
        ++ [StSuccess "Questions generated!"])%list,
     Returned
       (mkSession
          (Some (generator_with (candidate_with STOP four_keys_text)))
          (Some "Jane Doe")
          (Some (question_set_of four_keys_dict)) None None)).
Proof.
  apply (real_questions_show_success RefJson.loads
           (session_with (generator_with (candidate_with STOP four_keys_text))
                         (Some "Jane Doe"))
           (generator_with (candidate_with STOP four_keys_text))
           "J"%char "ane Doe" "Backend intern"
           [GenerateContent (build_prompt "Jane Doe" (Some "Backend intern"))]
           (question_set_of four_keys_dict) "Q1" []).
  - reflexivity.
  - reflexivity.
  - reflexivity.
  - vm_compute. reflexivity.
  - reflexivity.
  - reflexivity.
Defined.

(** X15 at the text [{}]. *)
Lemma empty_result_is_silent_witness :
  on_generate_click RefJson.loads
    (session_with (generator_with (candidate_with STOP "{}")) (Some "Jane Doe"))
    "Backend intern"
  = ([GenerateContent (build_prompt "Jane Doe" (Some "Backend intern"))],
     Returned
       (mkSession (Some (generator_with (candidate_with STOP "{}")))
                  (Some "Jane Doe") (Some (question_set_of [])) None None)).
Proof.
  apply (empty_result_is_silent RefJson.loads
           (session_with (generator_with (candidate_with STOP "{}"))
                         (Some "Jane Doe"))
           (generator_with (candidate_with STOP "{}"))
           "J"%char "ane Doe" "Backend intern").
  - reflexivity.
  - reflexivity.
  - reflexivity.
  - vm_compute. reflexivity.
Defined.

(** X18 at a page whose generator was built for ["key-1"], when the user
    types ["key-2"]. *)
Lemma sidebar_generator_matches_key_witness :
  ((exists gen,
       st_ai_question_gen (snd (sidebar configure_ok model_ok types_key_2 ready_page))
       = Some gen)
   <-> opt_truthy
         (GEMINI_API_KEY
            (environ (snd (sidebar configure_ok model_ok types_key_2 ready_page))))
       = true)
  /\ (forall gen,
        st_ai_question_gen (snd (sidebar configure_ok model_ok types_key_2 ready_page))
        = Some gen ->
        gemini_api_key gen
        = GEMINI_API_KEY
            (environ (snd (sidebar configure_ok model_ok types_key_2 ready_page)))
        /\ opt_truthy (gemini_api_key gen) = true).
Proof.
  apply (sidebar_generator_matches_key configure_ok model_ok types_key_2 ready_page).
  intros gen Hgen _. vm_compute in Hgen. injection Hgen as <-. reflexivity.
Defined.

(** X19 at a ready page, when the user empties the key field. *)
Lemma sidebar_keeps_configured_generator_witness :
  sidebar configure_ok model_ok clears ready_page
  = sidebar configure_refused model_ok clears ready_page
  /\ fst (sidebar configure_ok model_ok clears ready_page)
     = [SidebarInfo ("Using: Gemini (" ++ "gemini-1.5-flash-latest" ++ ")")]
  /\ st_ai_question_gen (snd (sidebar configure_ok model_ok clears ready_page))
     = Some ready_object
  /\ GEMINI_API_KEY (environ (snd (sidebar configure_ok model_ok clears ready_page)))
     = Some "key-1".
Proof.
  apply (sidebar_keeps_configured_generator configure_ok configure_refused
           model_ok model_ok clears ready_page ready_object
           "key-1" "gemini-1.5-flash-latest" "key-1");
    try reflexivity.
  right. reflexivity.
Defined.

(** X20 at a stored resume of twenty characters. *)
Lemma preview_is_bounded_witness :
  exists extracted,
    up_text stored_resume = Some extracted
    /\ extracted <> ""
    /\ "Jane Doe Python, SQL..." = slice_to 1000 extracted ++ "..."
    /\ String.length "Jane Doe Python, SQL..."
       = Nat.min 1000 (String.length extracted) + 3
    /\ String.length "Jane Doe Python, SQL..." <= 1003.
Proof.
  apply (preview_is_bounded stored_resume
           "View Extracted Resume Text (first 1000 chars)"
           "Jane Doe Python, SQL...").
  simpl. right. left. reflexivity.
Defined.

(** X21 at the first upload on a ready page. *)
Lemma new_upload_replaces_resume_witness :
  exists fx extracted,
    extract_text_from_pdf_bytes fitz_open_sample some_bytes
    = (fx, Returned extracted)
    /\ upload fitz_open_sample (Some ("cv.pdf", some_bytes)) ready_page
       = ((map Core fx ++ show_resume (mkUpload "cv.pdf" some_bytes extracted))%list,
          Returned (mkPage_state (environ ready_page) (st_gemini_api_key ready_page)
                                 (st_model_type ready_page)
                                 (st_ai_question_gen ready_page)
                                 (Some (mkUpload "cv.pdf" some_bytes extracted))
                                 None None None)).
Proof.
  apply (new_upload_replaces_resume fitz_open_sample ready_page "cv.pdf" some_bytes).
  intros u Hu. vm_compute in Hu. discriminate Hu.
Defined.

(** X23 at a second file named like the stored one, with other bytes. *)
Lemma same_name_is_not_read_again_witness :
  upload fitz_open_sample (Some (up_filename stored_resume, [])) page_with_resume
  = (show_resume stored_resume, Returned page_with_resume)
  /\ upload fitz_open_sample (Some (up_filename stored_resume, [])) page_with_resume
     = upload fitz_open_scanned (Some (up_filename stored_resume, some_bytes))
              page_with_resume.
Proof.
  apply (same_name_is_not_read_again fitz_open_sample fitz_open_scanned
           page_with_resume stored_resume [] some_bytes).
  reflexivity.
Defined.

(** X24 at the upload of a scan with no text layer. *)
Lemma unreadable_resume_sends_nothing_witness :
  on_generate_click RefJson.loads (session_of page_with_scan) "Backend intern"
  = ([StWarning "Please upload a resume first."],
     Returned (session_of page_with_scan)).
Proof.
  apply (unreadable_resume_sends_nothing RefJson.loads fitz_open_scanned
           ready_page page_with_scan "scan.pdf" some_bytes
           [DownloadButton some_bytes "scan.pdf" "application/pdf";
            Core (StError "Could not extract text from the uploaded PDF.")]
           ready_object "Backend intern").
  - intros u Hu. vm_compute in Hu. discriminate Hu.
  - vm_compute. reflexivity.
  - right. reflexivity.
  - reflexivity.
  - reflexivity.
Defined.

(** X25 at the upload of a two-page resume. *)
Lemma uploaded_text_reaches_the_prompt_witness :
  exists rest,
    effects (on_generate_click RefJson.loads (session_of page_with_resume)
                               "Backend intern")
    = GenerateContent (build_prompt "Jane Doe Python, SQL" (Some "Backend intern"))
        :: rest
    /\ request_count rest = 0
    /\ contains (build_prompt "Jane Doe Python, SQL" (Some "Backend intern"))
                "Jane Doe Python, SQL".
Proof.
  apply (uploaded_text_reaches_the_prompt RefJson.loads fitz_open_sample
           ready_page page_with_resume "cv.pdf" some_bytes
           [DownloadButton some_bytes "cv.pdf" "application/pdf";
            ExpanderText "View Extracted Resume Text (first 1000 chars)"
                         "Jane Doe Python, SQL..."]
           ready_object "Jane Doe Python, SQL" "Backend intern").
  - intros u Hu. vm_compute in Hu. discriminate Hu.
  - vm_compute. reflexivity.
  - reflexivity.
  - discriminate.
  - reflexivity.
  - reflexivity.
Defined.

(** ** Scenarios of the page *)

(** No key anywhere: [__init__] is not called, and the sidebar says the
    generator is not ready. *)
Example scenario_no_key :
  sidebar configure_ok model_ok untouched (empty_page env_without_key)
  = ([SidebarWarning "AI Generator not ready. Please provide your Gemini API key."],
     mkPage_state env_without_key (Some "") (Some "gemini") None
                  None None None None).
Proof. reflexivity. Qed.

(** A key that [genai.configure] refuses: the error of [__init__], then
    the warning, and an unconfigured generator that holds the key. *)
Example scenario_refused_key :
  sidebar configure_refused model_ok untouched (empty_page env_with_key)
  = ([SidebarError "Gemini Initialization Error: invalid API key";
      SidebarWarning "AI Generator not ready. Please provide your Gemini API key."],
     mkPage_state env_with_key (Some "key-1") (Some "gemini")
                  (Some (mkObject "gemini" (Some "key-1") None
                                  (mkGenerator None false)))
                  None None None None).
Proof. reflexivity. Qed.

(** A file that does not open: both errors are shown, and no download
    button, the file being empty. *)
Example scenario_unreadable_upload :
  fst (upload fitz_open_sample (Some ("empty.pdf", [])) ready_page)
  = [Core (StError "Error extracting text from PDF: cannot open empty stream");
     Core (StError "Could not extract text from the uploaded PDF.")].
Proof. reflexivity. Qed.
